(** * A proxy for object storage: shallow embedding of [main.go]

    The program is a single Go file.  It loads a process-wide configuration
    ([loadConfig]), and serves one route whose handler ([handleRequest])
    parses a bucket and an object key out of the request path, asks the
    selected backend for a presigned URL ([getPresignedURL]), fetches that
    URL and re-serves the body.

    Go strings are byte sequences; they are modelled by [string].  Byte
    buffers are [list byte].  [int64] values are [Z] with the wrap-around of
    the machine written out.  Calls that leave the program (the environment,
    the two storage SDKs, the network) go through a record of oracles, and
    each call of interest is recorded in a trace.  Diagnostic printing
    ([fmt.Println], [log.Printf]) has no effect on what is computed and is
    left out. *)

From Stdlib Require Import ZArith Strings.Ascii Strings.String Strings.Byte.
From stdpp Require Import base option list strings gmap pretty.

Local Open Scope string_scope.
Local Open Scope list_scope.

(** ** The [strings] package, as far as the program uses it *)

Module strings.

(** [cut_prefix p s] is [Some rest] when [s = p ++ rest]. *)
Fixpoint cut_prefix (prefix s : string) : option string :=
  match prefix, s with
  | EmptyString, _ => Some s
  | String p prefix', String c s' =>
      if Ascii.eqb p c then cut_prefix prefix' s' else None
  | String _ _, EmptyString => None
  end.

(** [strings.TrimPrefix]: [s] without the leading [prefix], or [s] itself
    when it does not start with [prefix]. *)
Definition TrimPrefix (s prefix : string) : string :=
  match cut_prefix prefix s with
  | Some rest => rest
  | None => s
  end.

(** [strings.Split(s, sep)] for a one-byte separator, which is the only way
    the program calls it.  The result is never empty: a string without the
    separator gives the one-element slice [[s]]. *)
Fixpoint Split (s : string) (sep : ascii) : list string :=
  match s with
  | EmptyString => [EmptyString]
  | String c s' =>
      if Ascii.eqb c sep then EmptyString :: Split s' sep
      else match Split s' sep with
           | seg :: rest => String c seg :: rest
           | [] => [String c EmptyString]
           end
  end.

(** [strings.Join(elems, sep)]. *)
Fixpoint Join (elems : list string) (sep : string) : string :=
  match elems with
  | [] => EmptyString
  | [e] => e
  | e :: rest => e +:+ sep +:+ Join rest sep
  end.

(** [contains c s]: the byte [c] occurs in [s]. *)
Fixpoint contains (c : ascii) (s : string) : bool :=
  match s with
  | EmptyString => false
  | String d s' => Ascii.eqb d c || contains c s'
  end.

End strings.

(** ** Run-time panics *)

(** The two run-time errors the program can raise by itself. *)
Inductive RuntimeError :=
| IndexOutOfRange (index len : nat)
| SliceBoundsOutOfRange (low high : nat).

(** The result of a piece of Go code that may panic. *)
Inductive Res (A : Type) :=
| Val (a : A)
| Panic (e : RuntimeError).
Arguments Val {A} a.
Arguments Panic {A} e.

(** [segments[i]] *)
Definition index {A} (segments : list A) (i : nat) : Res A :=
  match segments !! i with
  | Some x => Val x
  | None => Panic (IndexOutOfRange i (List.length segments))
  end.

(** [segments[low:]] *)
Definition slice_from {A} (segments : list A) (low : nat) : Res (list A) :=
  if decide (low <= List.length segments)%nat then Val (drop low segments)
  else Panic (SliceBoundsOutOfRange low (List.length segments)).

Definition slash : ascii := "/"%char.

(** ** Path parsing *)

Definition extractBucketName (path : string) : Res string :=
  let segments := strings.Split path slash in
  index segments 1.

Definition extractFileName (path : string) : Res string :=
  let segments := strings.Split path slash in
  match slice_from segments 2 with
  | Val rest => Val (strings.Join rest "/")
  | Panic e => Panic e
  end.


(** ** Data *)

(** A Go [error] value, by the message its [Error()] method returns; this is
    what the verb [%v] prints. *)
Definition error := string.

(** A Go result pair [(value, err)] of a library call: exactly one of the two
    is meaningful. *)
Inductive Result (A : Type) :=
| OK (a : A)
| Err (e : error).
Arguments OK {A} a.
Arguments Err {A} e.

Record ObjectStorageConfig := {
  AccessKey : string;
  SecretKey : string;
  Endpoint : string
}.

Record Config := {
  MinioConfig : ObjectStorageConfig;
  AWSConfig : ObjectStorageConfig;
  ServiceName : string
}.

(** [int64] arithmetic wraps around. *)
Definition wrap64 (z : Z) : Z := ((z + 2 ^ 63) mod 2 ^ 64 - 2 ^ 63)%Z.

Definition int64_mul (a b : Z) : Z := wrap64 (a * b).

Module time.
(** [time.Duration] is an [int64] count of nanoseconds. *)
Definition Duration := Z.
Definition Second : Duration := 1000000000%Z.
End time.

(** What [minio.New] is given. *)
Record MinioClient := {
  minio_endpoint : string;
  minio_accessKey : string;
  minio_secretKey : string;
  minio_secure : bool;
  minio_region : string
}.

(** What [awsConfig.LoadDefaultConfig] is given. *)
Record AwsCfg := {
  aws_endpointURL : string;
  aws_accessKey : string;
  aws_secretKey : string;
  aws_region : string
}.

Record Presigner := { PresignClient : AwsCfg }.

(** [v4.PresignedHTTPRequest]; the program reads its [URL] only. *)
Record PresignedHTTPRequest := { URL : string }.

(** The response of the outbound GET.  [Body] holds the bytes the body
    stream delivers and [BodyErr] the error that ends the stream early, if
    any. *)
Record Response := {
  StatusCode : Z;
  Body : list byte;
  BodyErr : option error
}.

(** The inbound request: the fields the handler and [http.ServeContent]
    look at. *)
Record Request := {
  Method : string;
  URL_Path : string;
  ReqHeader : gmap string string
}.

(** The [http.ResponseWriter] of one request: the header map, the status
    once it is written, and the body bytes written so far. *)
Record ResponseWriter := {
  Header : gmap string string;
  status : option Z;
  body : list byte
}.

(** The calls that the claims are about, in the order they happen. *)
Inductive Event :=
| EvAssignGlobalConfig (c : Config)
| EvMinioPresign (client : MinioClient) (bucketName objectName : string)
    (expires : time.Duration)
| EvS3Presign (cfg : AwsCfg) (bucket key : string) (expires : time.Duration)
| EvHttpGet (url : string)
| EvListenAndServe (addr : string).

(** Everything outside the program.  Each field is one library call; the
    program decides the arguments, the world decides the result. *)
Record World := {
  (** [godotenv.Load(file)]: the process environment afterwards, and the
      error it reports. *)
  godotenv_Load : string -> gmap string string -> gmap string string * option error;
  (** [minio.New]: whether the client can be built. *)
  minio_New : MinioClient -> option error;
  (** [PresignedGetObject] of the Minio client, followed by [String()]. *)
  minio_PresignedGetObject :
    MinioClient -> string -> string -> time.Duration -> Result string;
  (** [awsConfig.LoadDefaultConfig]: whether the configuration loads. *)
  awsConfig_LoadDefaultConfig : AwsCfg -> option error;
  (** [PresignGetObject] of the S3 presign client, with [opts.Expires] set. *)
  s3_PresignGetObject :
    AwsCfg -> string -> string -> time.Duration -> Result PresignedHTTPRequest;
  (** [http.Get]. *)
  http_Get : string -> Result Response;
  (** The content type [http.ServeContent] picks from the file name and the
      content when the handler has set none. *)
  http_DetectContentType : string -> list byte -> string;
  (** What [http.ServeContent] does in the cases that are not modelled: a
      request with a precondition header, or with a [Range] header that is
      not one plain byte range inside the content. *)
  http_serveConditional :
    ResponseWriter -> Request -> string -> list byte -> ResponseWriter;
  (** [http.ListenAndServe(addr, nil)]: the error when the address cannot be
      bound. *)
  net_Listen : string -> option error
}.

(** ** The process state and the monad of the program *)

Record Sys := {
  globalConfig : Config;
  environ : gmap string string;
  trace : list Event
}.

(** A computation reads and writes the process state and may panic. *)
Definition M (A : Type) : Type := Sys -> Res A * Sys.

Definition M_ret {A} (a : A) : M A := fun s => (Val a, s).

Definition M_bind {A B} (m : M A) (f : A -> M B) : M B :=
  fun s =>
    match m s with
    | (Val a, s') => f a s'
    | (Panic e, s') => (Panic e, s')
    end.

#[global] Instance M_MRet : MRet M := @M_ret.
#[global] Instance M_MBind : MBind M := fun A B f m => M_bind m f.

(** A pure computation that may panic. *)
Definition lift {A} (r : Res A) : M A := fun s => (r, s).

(** Reading the global variable [globalConfig]. *)
Definition readGlobalConfig : M Config := fun s => (Val (globalConfig s), s).

(** The state after some more calls have been made. *)
Definition addEvents (s : Sys) (evs : list Event) : Sys :=
  {| globalConfig := globalConfig s;
     environ := environ s;
     trace := trace s ++ evs |}.

Definition emit (e : Event) : M unit := fun s => (Val tt, addEvents s [e]).

(** The assignment [globalConfig = c]. *)
Definition assignGlobalConfig (c : Config) : M unit :=
  fun s => (Val tt, {| globalConfig := c;
                       environ := environ s;
                       trace := trace s ++ [EvAssignGlobalConfig c] |}).

(** ** The response writer *)

Definition newResponseWriter : ResponseWriter :=
  {| Header := ∅; status := None; body := [] |}.

(** [w.Header().Set(key, value)] *)
Definition Header_Set (key value : string) (w : ResponseWriter) : ResponseWriter :=
  {| Header := <[key := value]> (Header w); status := status w; body := body w |}.

(** [h.Get(key)]: the value, or the empty string when there is none. *)
Definition Header_Get (h : gmap string string) (key : string) : string :=
  default "" (h !! key).

(** [w.WriteHeader(code)]; only the first call counts. *)
Definition WriteHeader (code : Z) (w : ResponseWriter) : ResponseWriter :=
  match status w with
  | Some _ => w
  | None => {| Header := Header w; status := Some code; body := body w |}
  end.

(** [w.Write(p)]: the first write sends status 200 when none has been sent. *)
Definition Write (p : list byte) (w : ResponseWriter) : ResponseWriter :=
  let w := WriteHeader 200 w in
  {| Header := Header w; status := status w; body := body w ++ p |}.

(** [fmt.Fprintf(w, format, err)] for a format that ends in [%v]: the text
    before the verb, then the error's message. *)
Definition Fprintf (w : ResponseWriter) (text : string) (err : error) : ResponseWriter :=
  Write (list_byte_of_string (text +:+ err)) w.

(** The status line the caller sees: 200 unless the handler chose one. *)
Definition statusSeen (w : ResponseWriter) : Z := default 200%Z (status w).

(** [io.Copy(buffer, body)] into an empty buffer: the buffer afterwards and
    the error, if the stream broke. *)
Definition io_Copy (resp : Response) : list byte * option error :=
  (Body resp, BodyErr resp).

Section Program.

Context (W : World).

(** ** [http.ServeContent] *)

(** The library function the handler ends with, modelled from its
    documentation: it serves the content, honours a [Range] header and the
    precondition headers, and sends no body for a [HEAD] request.  The cases
    modelled here are a request without any of these headers and a request
    with one byte range of the form [bytes=first-last] or [bytes=first-];
    every other case is left to the world. *)

Definition preconditionHeaders : list string :=
  ["If-Match"; "If-Unmodified-Since"; "If-None-Match"; "If-Modified-Since";
   "If-Range"].

Definition noPreconditions (r : Request) : bool :=
  forallb (fun k => String.eqb (Header_Get (ReqHeader r) k) "") preconditionHeaders.

(** A request with neither a [Range] header nor a precondition header. *)
Definition plainRequest (r : Request) : bool :=
  noPreconditions r && String.eqb (Header_Get (ReqHeader r) "Range") "".

(** [httpRange]: a byte range of the content. *)
Record httpRange := { range_start : N; range_length : N }.

Definition digitValue (c : ascii) : option N :=
  let n := N_of_ascii c in
  if (48 <=? n)%N && (n <=? 57)%N then Some (n - 48)%N else None.

Fixpoint parseDigits (s : string) (acc : N) : option N :=
  match s with
  | EmptyString => Some acc
  | String c s' =>
      match digitValue c with
      | Some d => parseDigits s' (10 * acc + d)%N
      | None => None
      end
  end.

(** A non-empty run of decimal digits whose value fits [int64]. *)
Definition parseOffset (s : string) : option N :=
  match s with
  | EmptyString => None
  | _ => match parseDigits s 0 with
         | Some n => if (n <? 2 ^ 63)%N then Some n else None
         | None => None
         end
  end.

(** [parseRange] for the headers [bytes=first-last] and [bytes=first-] with
    [first] inside the content: the one range they denote, the last byte
    clipped to the content.  [None] for every other header. *)
Definition parseRange (s : string) (size : N) : option httpRange :=
  match strings.cut_prefix "bytes=" s with
  | None => None
  | Some spec =>
      match strings.Split spec "-"%char with
      | [first; last] =>
          match parseOffset first with
          | None => None
          | Some i =>
              if (size <=? i)%N then None
              else if String.eqb last "" then
                Some {| range_start := i; range_length := size - i |}
              else
                match parseOffset last with
                | None => None
                | Some j =>
                    if (j <? i)%N then None
                    else
                      let j := if (size <=? j)%N then (size - 1)%N else j in
                      Some {| range_start := i; range_length := j - i + 1 |}
                end
          end
      | _ => None
      end
  end.

(** [fmt.Sprintf("bytes %d-%d/%d", start, start+length-1, size)] *)
Definition contentRange (ra : httpRange) (size : N) : string :=
  "bytes " +:+ pretty (range_start ra) +:+ "-"
  +:+ pretty (range_start ra + range_length ra - 1)%N +:+ "/" +:+ pretty size.

(** The end of [ServeContent]: the headers about the content, the status,
    and the bytes unless the request is a [HEAD]. *)
Definition sendContent (w : ResponseWriter) (r : Request) (code : Z)
    (sendSize : N) (toSend : list byte) : ResponseWriter :=
  let w := Header_Set "Accept-Ranges" "bytes" w in
  let w := if String.eqb (Header_Get (Header w) "Content-Encoding") ""
           then Header_Set "Content-Length" (pretty sendSize) w
           else w in
  let w := WriteHeader code w in
  if String.eqb (Method r) "HEAD" then w else Write toSend w.

(** [http.ServeContent(w, r, name, time.Time{}, bytes.NewReader(content))].
    With a zero modification time no [Last-Modified] is sent. *)
Definition ServeContent (w : ResponseWriter) (r : Request) (name : string)
    (content : list byte) : ResponseWriter :=
  if noPreconditions r then
    let rangeHeader := Header_Get (ReqHeader r) "Range" in
    let size := N.of_nat (List.length content) in
    let typed := match Header w !! "Content-Type" with
                 | Some _ => w
                 | None => Header_Set "Content-Type"
                             (http_DetectContentType W name content) w
                 end in
    if String.eqb rangeHeader "" then
      sendContent typed r 200 size content
    else
      match parseRange rangeHeader size with
      | Some ra =>
          let ranged := Header_Set "Content-Range" (contentRange ra size) typed in
          sendContent ranged r 206 (range_length ra)
            (take (N.to_nat (range_length ra))
               (drop (N.to_nat (range_start ra)) content))
      | None => http_serveConditional W w r name content
      end
  else http_serveConditional W w r name content.

(** ** Configuration *)

(** [conf.GetString(key)] of a viper instance with [AutomaticEnv]: the
    environment variable, or the empty string. *)
Definition GetString (key : string) : M string :=
  fun s => (Val (default "" (environ s !! key)), s).

(** [godotenv.Load(file)] *)
Definition godotenv_Load_call (file : string) : M (option error) :=
  fun s =>
    let '(env', err) := godotenv_Load W file (environ s) in
    (Val err, {| globalConfig := globalConfig s; environ := env'; trace := trace s |}).

Definition loadConfig (path : string) : M (option error) :=
  godotenv_Load_call (path +:+ "/.env");;
  minioAccessKey ← GetString "MINIO_ACCESS_KEY";
  minioSecretKey ← GetString "MINIO_SECRET_KEY";
  minioEndpoint ← GetString "MINIO_ENDPOINT";
  awsAccessKey ← GetString "AWS_ACCESS_KEY";
  awsSecretKey ← GetString "AWS_SECRET_KEY";
  awsEndpoint ← GetString "AWS_ENDPOINT";
  serviceName ← GetString "SERVICE_NAME";
  assignGlobalConfig
    {| MinioConfig := {| AccessKey := minioAccessKey;
                         SecretKey := minioSecretKey;
                         Endpoint := minioEndpoint |};
       AWSConfig := {| AccessKey := awsAccessKey;
                       SecretKey := awsSecretKey;
                       Endpoint := awsEndpoint |};
       ServiceName := serviceName |};;
  mret None.

(** ** Presigning *)

(** The client [getPresignedURL] asks [minio.New] for: the Minio endpoint
    and static credentials of the configuration, secure transport, region
    [auto]. *)
Definition minioClientOf (cfg : Config) : MinioClient :=
  {| minio_endpoint := Endpoint (MinioConfig cfg);
     minio_accessKey := AccessKey (MinioConfig cfg);
     minio_secretKey := SecretKey (MinioConfig cfg);
     minio_secure := true;
     minio_region := "auto" |}.

(** The configuration [getPresignedURL] asks [awsConfig.LoadDefaultConfig]
    for: the AWS endpoint as a custom endpoint, static credentials, region
    [auto]. *)
Definition awsCfgOf (cfg : Config) : AwsCfg :=
  {| aws_endpointURL := Endpoint (AWSConfig cfg);
     aws_accessKey := AccessKey (AWSConfig cfg);
     aws_secretKey := SecretKey (AWSConfig cfg);
     aws_region := "auto" |}.

Definition PresignGetObject_call (client : AwsCfg) (bucket key : string)
    (expires : time.Duration) : M (Result PresignedHTTPRequest) :=
  emit (EvS3Presign client bucket key expires);;
  mret (s3_PresignGetObject W client bucket key expires).

Definition PresignedGetObject_call (client : MinioClient)
    (bucketName objectName : string) (expires : time.Duration) : M (Result string) :=
  emit (EvMinioPresign client bucketName objectName expires);;
  mret (minio_PresignedGetObject W client bucketName objectName expires).

(** The method [GetObject] of [Presigner]. *)
Definition Presigner_GetObject (presigner : Presigner)
    (bucketName objectKey : string) (lifetimeSecs : Z)
    : M (Result PresignedHTTPRequest) :=
  PresignGetObject_call (PresignClient presigner) bucketName objectKey
    (int64_mul lifetimeSecs time.Second).

Definition getPresignedURL (bucketName fileName : string) (lifetimeSecs : Z)
    : M (string * option error) :=
  cfg ← readGlobalConfig;
  if String.eqb (ServiceName cfg) "minio" then
    let minioClient := minioClientOf cfg in
    match minio_New W minioClient with
    | Some err => mret ("", Some err)
    | None =>
        respURL ← PresignedGetObject_call minioClient bucketName fileName
                    (time.Second * 60)%Z;
        match respURL with
        | Err err => mret ("", Some err)
        | OK url => mret (url, None)
        end
    end
  else if String.eqb (ServiceName cfg) "S3" || String.eqb (ServiceName cfg) "R2" then
    let awsCfg := awsCfgOf cfg in
    match awsConfig_LoadDefaultConfig W awsCfg with
    | Some err => mret ("", Some err)
    | None =>
        let presigner := {| PresignClient := awsCfg |} in
        respURL ← Presigner_GetObject presigner bucketName fileName lifetimeSecs;
        match respURL with
        | Err err => mret ("", Some err)
        | OK req => mret (URL req, None)
        end
    end
  else mret ("", Some "unsupported object storage service").

(** ** The handler *)

Definition Get_call (url : string) : M (Result Response) :=
  emit (EvHttpGet url);;
  mret (http_Get W url).

Definition handleRequest (w : ResponseWriter) (r : Request) : M ResponseWriter :=
  let path := strings.TrimPrefix (URL_Path r) "/stream/" in
  bucketName ← lift (extractBucketName path);
  fileName ← lift (extractFileName path);
  '(presignedURL, err) ← getPresignedURL bucketName fileName 10;
  match err with
  | Some err => mret (Fprintf w "Error getting presigned URL: " err)
  | None =>
      getResponse ← Get_call presignedURL;
      match getResponse with
      | Err err => mret (Fprintf w "Error getting object: " err)
      | OK getResponse =>
          let '(buffer, err) := io_Copy getResponse in
          match err with
          | Some err => mret (Fprintf w "Error reading object: " err)
          | None =>
              let w := Header_Set "Content-Type" "application/octet-stream" w in
              let w := Header_Set "Accept-Ranges" "bytes" w in
              let w := Header_Set "Content-Length" (pretty (List.length buffer)) w in
              let w := Header_Set "Access-Control-Allow-Origin" "*" w in
              mret (ServeContent w r fileName buffer)
          end
      end
  end.

End Program.

(** ** The server and [main] *)

(** What the caller of one request gets: a response, or nothing when the
    handler panicked (the server recovers and drops the connection). *)
Inductive Reply :=
| Replied (w : ResponseWriter)
| Aborted (e : RuntimeError).

(** What the server sends of the writer the handler leaves: the body a
    handler writes while serving a [HEAD] request is discarded. *)
Definition sentToCaller (r : Request) (w : ResponseWriter) : ResponseWriter :=
  if String.eqb (Method r) "HEAD"
  then {| Header := Header w; status := status w; body := [] |}
  else w.

(** One request through the server: a fresh writer, the handler, what is
    sent of its writer, and the recovery of a panic. *)
Definition serveRequest (W : World) (r : Request) : M Reply :=
  fun s =>
    match handleRequest W newResponseWriter r s with
    | (Val w, s') => (Val (Replied (sentToCaller r w)), s')
    | (Panic e, s') => (Val (Aborted e), s')
    end.

(** The requests the server hands to the handler, one after the other, each
    with the world as it is at that time. *)
Fixpoint serve (requests : list (World * Request)) : M (list Reply) :=
  match requests with
  | [] => mret []
  | (W, r) :: rest =>
      reply ← serveRequest W r;
      replies ← serve rest;
      mret (reply :: replies)
  end.

(** How the process ends. *)
Inductive Exit :=
| FatalConfig (e : error)
| FatalListen (e : error)
| Served (replies : list Reply).

Definition main (W : World) (requests : list (World * Request)) : M Exit :=
  err ← loadConfig W ".";
  match err with
  | Some err => mret (FatalConfig err)
  | None =>
      emit (EvListenAndServe ":8080");;
      match net_Listen W ":8080" with
      | Some err => mret (FatalListen err)
      | None => replies ← serve requests; mret (Served replies)
      end
  end.

(** The process before [main] runs: the zero [Config], the inherited
    environment, nothing done yet. *)
Definition startup (env : gmap string string) : Sys :=
  {| globalConfig :=
       {| MinioConfig := {| AccessKey := ""; SecretKey := ""; Endpoint := "" |};
          AWSConfig := {| AccessKey := ""; SecretKey := ""; Endpoint := "" |};
          ServiceName := "" |};
     environ := env;
     trace := [] |}.

(** The first three declarations of the handler, taken together: the object
    reference it goes on with. *)
Definition parsePath (urlPath : string) : Res (string * string) :=
  let path := strings.TrimPrefix urlPath "/stream/" in
  match extractBucketName path with
  | Panic e => Panic e
  | Val bucketName =>
      match extractFileName path with
      | Panic e => Panic e
      | Val fileName => Val (bucketName, fileName)
      end
  end.

(** The segments of the request path after the route prefix. *)
Definition segmentsOf (urlPath : string) : list string :=
  strings.Split (strings.TrimPrefix urlPath "/stream/") slash.

(** ** What is observed of a run *)

(** The events [getPresignedURL] adds to the trace. *)
Definition presignEvents (W : World) (cfg : Config) (bucketName fileName : string)
    (lifetimeSecs : Z) : list Event :=
  if String.eqb (ServiceName cfg) "minio" then
    match minio_New W (minioClientOf cfg) with
    | Some _ => []
    | None => [EvMinioPresign (minioClientOf cfg) bucketName fileName
                 (time.Second * 60)%Z]
    end
  else if String.eqb (ServiceName cfg) "S3" || String.eqb (ServiceName cfg) "R2" then
    match awsConfig_LoadDefaultConfig W (awsCfgOf cfg) with
    | Some _ => []
    | None => [EvS3Presign (awsCfgOf cfg) bucketName fileName
                 (int64_mul lifetimeSecs time.Second)]
    end
  else [].

(** The writer the handler hands to [http.ServeContent] after a successful
    fetch of [buffer]. *)
Definition withObjectHeaders (w : ResponseWriter) (buffer : list byte) : ResponseWriter :=
  Header_Set "Access-Control-Allow-Origin" "*"
    (Header_Set "Content-Length" (pretty (List.length buffer))
       (Header_Set "Accept-Ranges" "bytes"
          (Header_Set "Content-Type" "application/octet-stream" w))).

(** What the handler answers once the URL is resolved, by the result of the
    outbound GET. *)
Definition answerOf (W : World) (w : ResponseWriter) (r : Request)
    (fileName : string) (got : Result Response) : ResponseWriter :=
  match got with
  | Err err => Fprintf w "Error getting object: " err
  | OK resp =>
      match BodyErr resp with
      | Some err => Fprintf w "Error reading object: " err
      | None => ServeContent W (withObjectHeaders w (Body resp)) r fileName (Body resp)
      end
  end.

(** The ways a request whose path parses can fail, each with the error
    that made it fail. *)
Inductive Failure :=
| ResolutionError (err : error)
| FetchError (err : error)
| ReadError (err : error).

(** [fails W r s fl]: the handler, run on [r] in state [s], takes the error
    branch [fl]. *)
Definition fails (W : World) (r : Request) (s : Sys) (fl : Failure) : Prop :=
  exists b f url s1,
    parsePath (URL_Path r) = Val (b, f)
    /\ match fl with
       | ResolutionError err =>
           getPresignedURL W b f 10 s = (Val (url, Some err), s1)
       | FetchError err =>
           getPresignedURL W b f 10 s = (Val (url, None), s1)
           /\ http_Get W url = Err err
       | ReadError err =>
           getPresignedURL W b f 10 s = (Val (url, None), s1)
           /\ exists resp, http_Get W url = OK resp /\ BodyErr resp = Some err
       end.

(** The message the handler writes on each error branch. *)
Definition diagnostic (fl : Failure) : string :=
  match fl with
  | ResolutionError err => "Error getting presigned URL: " +:+ err
  | FetchError err => "Error getting object: " +:+ err
  | ReadError err => "Error reading object: " +:+ err
  end.

(** [fetched W r s resp]: the handler, run on [r] in state [s], resolves a
    URL, gets [resp] from it and reads its body to the end. *)
Definition fetched (W : World) (r : Request) (s : Sys) (resp : Response) : Prop :=
  exists b f url s1,
    parsePath (URL_Path r) = Val (b, f)
    /\ getPresignedURL W b f 10 s = (Val (url, None), s1)
    /\ http_Get W url = OK resp
    /\ BodyErr resp = None.

(** The outbound GET a request makes once its URL is resolved. *)
Definition fetchEvents (W : World) (b f : string) (s : Sys) : list Event :=
  match (getPresignedURL W b f 10 s).1 with
  | Val (url, None) => [EvHttpGet url]
  | _ => []
  end.

(** The events one request adds to the trace. *)
Definition requestEvents (W : World) (r : Request) (s : Sys) : list Event :=
  match parsePath (URL_Path r) with
  | Panic _ => []
  | Val (b, f) => presignEvents W (globalConfig s) b f 10 ++ fetchEvents W b f s
  end.

(** The configuration [loadConfig] builds from an environment. *)
Definition configOfEnv (env : gmap string string) : Config :=
  {| MinioConfig := {| AccessKey := default "" (env !! "MINIO_ACCESS_KEY");
                       SecretKey := default "" (env !! "MINIO_SECRET_KEY");
                       Endpoint := default "" (env !! "MINIO_ENDPOINT") |};
     AWSConfig := {| AccessKey := default "" (env !! "AWS_ACCESS_KEY");
                     SecretKey := default "" (env !! "AWS_SECRET_KEY");
                     Endpoint := default "" (env !! "AWS_ENDPOINT") |};
     ServiceName := default "" (env !! "SERVICE_NAME") |}.

(** The response [http.Get] returned, when it returned one. *)
Definition http_Get_value (W : World) (url : string) : option Response :=
  match http_Get W url with
  | OK resp => Some resp
  | Err _ => None
  end.

(** Telling the events apart. *)
Definition isAssign (e : Event) : bool :=
  match e with EvAssignGlobalConfig _ => true | _ => false end.

Definition isHttpGet (e : Event) : bool :=
  match e with EvHttpGet _ => true | _ => false end.

(** What [getPresignedURL] returns, as a function of the configuration it
    reads. *)
Definition resolution (W : World) (cfg : Config) (bucketName fileName : string)
    (lifetimeSecs : Z) : string * option error :=
  if String.eqb (ServiceName cfg) "minio" then
    match minio_New W (minioClientOf cfg) with
    | Some err => ("", Some err)
    | None =>
        match minio_PresignedGetObject W (minioClientOf cfg) bucketName fileName
                (time.Second * 60)%Z with
        | Err err => ("", Some err)
        | OK url => (url, None)
        end
    end
  else if String.eqb (ServiceName cfg) "S3" || String.eqb (ServiceName cfg) "R2" then
    match awsConfig_LoadDefaultConfig W (awsCfgOf cfg) with
    | Some err => ("", Some err)
    | None =>
        match s3_PresignGetObject W (awsCfgOf cfg) bucketName fileName
                (int64_mul lifetimeSecs time.Second) with
        | Err err => ("", Some err)
        | OK req => (URL req, None)
        end
    end
  else ("", Some "unsupported object storage service").

(** A world whose SDKs cannot build their clients. *)
Definition brokenSdkWorld : World :=
  {| godotenv_Load := fun _ env => (env, None);
     minio_New := fun _ => Some "Endpoint url cannot have fully qualified paths.";
     minio_PresignedGetObject := fun _ _ _ _ => Err "unreachable";
     awsConfig_LoadDefaultConfig := fun _ => Some "failed to load shared config";
     s3_PresignGetObject := fun _ _ _ _ => Err "unreachable";
     http_Get := fun _ => Err "unreachable";
     http_DetectContentType := fun _ _ => "";
     http_serveConditional := fun w _ _ _ => w;
     net_Listen := fun _ => None |}.

(** ** Sample worlds, states and requests

    Concrete inputs on which the program is run below. *)

(** A world in which both SDKs work and the outbound GET behaves as [get]
    says; there is no [.env] file. *)
Definition sampleWorld (get : string -> Result Response) : World :=
  {| godotenv_Load := fun _ env => (env, Some "open ./.env: no such file or directory");
     minio_New := fun _ => None;
     minio_PresignedGetObject := fun c b o _ =>
       OK ("https://" +:+ minio_endpoint c +:+ "/" +:+ b +:+ "/" +:+ o);
     awsConfig_LoadDefaultConfig := fun _ => None;
     s3_PresignGetObject := fun c b k _ =>
       OK {| URL := aws_endpointURL c +:+ "/" +:+ b +:+ "/" +:+ k |};
     http_Get := get;
     http_DetectContentType := fun _ _ => "text/plain; charset=utf-8";
     http_serveConditional := fun w _ _ _ => w;
     net_Listen := fun _ => None |}.

(** The upstream serves the five bytes [hello] with status 200. *)
Definition helloUpstream (url : string) : Result Response :=
  OK {| StatusCode := 200; Body := list_byte_of_string "hello"; BodyErr := None |}.

(** The upstream answers 404 with the body [NoSuchKey]. *)
Definition notFoundUpstream (url : string) : Result Response :=
  OK {| StatusCode := 404; Body := list_byte_of_string "NoSuchKey"; BodyErr := None |}.

(** The upstream cannot be reached. *)
Definition unreachableUpstream (url : string) : Result Response :=
  Err "dial tcp: connection refused".

Definition sampleConfig (service : string) : Config :=
  {| MinioConfig := {| AccessKey := "minio-access";
                       SecretKey := "minio-secret";
                       Endpoint := "minio.example.com" |};
     AWSConfig := {| AccessKey := "aws-access";
                     SecretKey := "aws-secret";
                     Endpoint := "https://s3.example.com" |};
     ServiceName := service |}.

(** A running process whose configuration selects [service]. *)
Definition sampleSys (service : string) : Sys :=
  {| globalConfig := sampleConfig service; environ := ∅; trace := [] |}.

Definition sampleRequest (method path : string) : Request :=
  {| Method := method; URL_Path := path; ReqHeader := ∅ |}.

(** A GET request for the first byte of the object only. *)
Definition firstByteRequest (path : string) : Request :=
  {| Method := "GET"; URL_Path := path;
     ReqHeader := {[ "Range" := "bytes=0-0" ]} |}.

(** * Properties *)

(** Running a computation of the program: unfold the monad. *)
Ltac run :=
  unfold mbind, M_MBind, M_bind, mret, M_MRet, M_ret, lift, emit,
    readGlobalConfig in *.

(** ** Strings *)

Lemma cut_prefix_app (p s : string) : strings.cut_prefix p (p +:+ s) = Some s.
Proof.
  induction p as [|c p IH]; simpl; [reflexivity|].
  rewrite Ascii.eqb_refl. exact IH.
Qed.

Lemma TrimPrefix_app (p s : string) : strings.TrimPrefix (p +:+ s) p = s.
Proof. unfold strings.TrimPrefix. now rewrite cut_prefix_app. Qed.

Lemma Split_nonempty (s : string) (sep : ascii) : strings.Split s sep <> [].
Proof.
  induction s as [|c s IH]; simpl; [discriminate|].
  destruct (Ascii.eqb c sep); [discriminate|].
  destruct (strings.Split s sep); [contradiction|discriminate].
Qed.

(** A segment without the separator, then the separator: the segment is the
    head of the split. *)
Lemma Split_segment (a rest : string) (sep : ascii) :
  strings.contains sep a = false ->
  strings.Split (a +:+ String sep rest) sep = a :: strings.Split rest sep.
Proof.
  induction a as [|c a IH]; simpl; intros Hc.
  - now rewrite Ascii.eqb_refl.
  - apply orb_false_iff in Hc as [Hne Hc].
    rewrite Hne, (IH Hc). reflexivity.
Qed.

(** Joining what was split gives the string back. *)
Lemma Join_Split (s : string) (sep : ascii) :
  strings.Join (strings.Split s sep) (String sep EmptyString) = s.
Proof.
  induction s as [|c s IH]; simpl; [reflexivity|].
  destruct (Ascii.eqb_spec c sep) as [->|Hne].
  - pose proof (Split_nonempty s sep) as Hn.
    destruct (strings.Split s sep) as [|seg rest] eqn:E; [contradiction|].
    change (strings.Join ("" :: seg :: rest) (String sep ""))
      with (String sep (strings.Join (seg :: rest) (String sep ""))).
    now rewrite IH.
  - pose proof (Split_nonempty s sep) as Hn.
    destruct (strings.Split s sep) as [|seg rest] eqn:E; [contradiction|].
    destruct rest as [|seg' rest]; simpl in *; now rewrite <- IH.
Qed.

(** ** Path parsing (C1, C7) *)

(** C1, as stated, fails: for the request path [/stream/mybucket/a/b/c.png]
    the parsing step does not yield bucket [mybucket] and key [a/b/c.png];
    it yields bucket [a] and key [b/c.png]. *)
Lemma C1_first_segment_counterexample :
  parsePath "/stream/mybucket/a/b/c.png" <> Val ("mybucket", "a/b/c.png")
  /\ parsePath "/stream/mybucket/a/b/c.png" = Val ("a", "b/c.png").
Proof. split; [discriminate|reflexivity]. Qed.

(** C1, amended: for a request path [/stream/{first}/{bucket}/{key...}],
    where [first] and [bucket] contain no slash, the parsing step yields the
    second segment after the prefix as the bucket and everything after it as
    the key, slashes included; the first segment is skipped. *)
Theorem C1_parse_second_segment (first bucket key : string) :
  strings.contains slash first = false ->
  strings.contains slash bucket = false ->
  parsePath ("/stream/" +:+ first +:+ "/" +:+ bucket +:+ "/" +:+ key)
  = Val (bucket, key).
Proof.
  intros Hf Hb. unfold parsePath.
  rewrite TrimPrefix_app.
  unfold extractBucketName, extractFileName.
  change ("/" +:+ bucket +:+ "/" +:+ key)
    with (String slash (bucket +:+ String slash key)).
  rewrite (Split_segment first _ slash Hf), (Split_segment bucket _ slash Hb).
  cbn.
  do 2 f_equal. exact (Join_Split key slash).
Qed.

(** The same on a concrete run. *)
Lemma C1_parse_second_segment_witness :
  strings.contains slash "mybucket" = false
  /\ strings.contains slash "a" = false
  /\ parsePath "/stream/mybucket/a/b/c.png" = Val ("a", "b/c.png").
Proof.
  split; [reflexivity|]. split; [reflexivity|].
  apply (C1_parse_second_segment "mybucket" "a" "b/c.png"); reflexivity.
Defined.

(** With fewer than two segments both extractions panic. *)
Lemma extract_out_of_bounds (path : string) :
  (List.length (strings.Split path slash) < 2)%nat ->
  extractBucketName path
    = Panic (IndexOutOfRange 1 (List.length (strings.Split path slash)))
  /\ extractFileName path
    = Panic (SliceBoundsOutOfRange 2 (List.length (strings.Split path slash))).
Proof.
  intros Hn. unfold extractBucketName, extractFileName, index, slice_from.
  split.
  - rewrite (proj2 (lookup_ge_None _ _)); [reflexivity|lia].
  - destruct (decide _) as [Hle|_]; [lia|reflexivity].
Qed.

(** With two segments or more both succeed. *)
Lemma extract_in_bounds (path : string) :
  (2 <= List.length (strings.Split path slash))%nat ->
  exists bucketName,
    strings.Split path slash !! 1%nat = Some bucketName
    /\ extractBucketName path = Val bucketName
    /\ extractFileName path
       = Val (strings.Join (drop 2 (strings.Split path slash)) "/").
Proof.
  intros Hn. unfold extractBucketName, extractFileName, index, slice_from.
  destruct (lookup_lt_is_Some_2 (strings.Split path slash) 1 ltac:(lia)) as [b Hb].
  exists b. rewrite Hb. destruct (decide _) as [_|Hgt]; [auto|lia].
Qed.

(** A handler whose path does not parse panics before it does anything. *)
Lemma handleRequest_panic (W : World) (w : ResponseWriter) (r : Request)
    (s : Sys) (e : RuntimeError) :
  parsePath (URL_Path r) = Panic e ->
  handleRequest W w r s = (Panic e, s).
Proof.
  unfold parsePath, handleRequest. run.
  destruct (extractBucketName _) as [b|e1]; [|congruence].
  destruct (extractFileName _) as [f|e2]; [discriminate|congruence].
Qed.

(** C7: when the request path, after the route prefix is stripped, has fewer
    than two segments, the index in [extractBucketName] and the slice in
    [extractFileName] are both out of bounds, and the request fails: the
    handler panics before it resolves or fetches anything, and the caller gets
    no response. *)
Theorem C7_fewer_than_two_segments (W : World) (w : ResponseWriter)
    (r : Request) (s : Sys) :
  (List.length (segmentsOf (URL_Path r)) < 2)%nat ->
  let path := strings.TrimPrefix (URL_Path r) "/stream/" in
  let n := List.length (segmentsOf (URL_Path r)) in
  extractBucketName path = Panic (IndexOutOfRange 1 n)
  /\ extractFileName path = Panic (SliceBoundsOutOfRange 2 n)
  /\ handleRequest W w r s = (Panic (IndexOutOfRange 1 n), s)
  /\ serveRequest W r s = (Val (Aborted (IndexOutOfRange 1 n)), s).
Proof.
  intros Hn path n.
  destruct (extract_out_of_bounds path Hn) as [Hb Hf].
  assert (Hp : parsePath (URL_Path r) = Panic (IndexOutOfRange 1 n)).
  { unfold parsePath. fold path. now rewrite Hb. }
  repeat split; [exact Hb|exact Hf|now apply handleRequest_panic|].
  unfold serveRequest. now rewrite (handleRequest_panic _ _ _ _ _ Hp).
Qed.

(** The same on a concrete run. *)
Lemma C7_fewer_than_two_segments_witness :
  (List.length (segmentsOf "/stream/onlybucket") < 2)%nat
  /\ handleRequest (sampleWorld helloUpstream) newResponseWriter
       (sampleRequest "GET" "/stream/onlybucket") (sampleSys "S3")
     = (Panic (IndexOutOfRange 1 1), sampleSys "S3").
Proof.
  split; [vm_compute; lia|].
  apply (C7_fewer_than_two_segments (sampleWorld helloUpstream) newResponseWriter
           (sampleRequest "GET" "/stream/onlybucket") (sampleSys "S3")).
  vm_compute; lia.
Defined.

(** ** What the program does, step by step *)

Lemma addEvents_nil (s : Sys) : addEvents s [] = s.
Proof. destruct s; unfold addEvents; simpl. now rewrite app_nil_r. Qed.

Lemma addEvents_app (s : Sys) (evs evs' : list Event) :
  addEvents (addEvents s evs) evs' = addEvents s (evs ++ evs').
Proof. unfold addEvents; simpl. now rewrite app_assoc. Qed.

(** [getPresignedURL] never panics, leaves the state alone and adds
    [presignEvents] to the trace. *)
Lemma getPresignedURL_runs (W : World) (b f : string) (l : Z) (s : Sys) :
  exists url err,
    getPresignedURL W b f l s
    = (Val (url, err), addEvents s (presignEvents W (globalConfig s) b f l)).
Proof.
  unfold getPresignedURL, presignEvents, Presigner_GetObject,
    PresignGetObject_call, PresignedGetObject_call. run. cbn.
  destruct (String.eqb (ServiceName (globalConfig s)) "minio").
  - destruct (minio_New W _); [rewrite addEvents_nil; eauto|].
    destruct (minio_PresignedGetObject W _ _ _ _); eauto.
  - destruct (String.eqb _ "S3" || String.eqb _ "R2"); cbn.
    + destruct (awsConfig_LoadDefaultConfig W _); [rewrite addEvents_nil; eauto|].
      destruct (s3_PresignGetObject W _ _ _ _); eauto.
    + rewrite addEvents_nil; eauto.
Qed.

Lemma parsePath_Val (urlPath b f : string) :
  parsePath urlPath = Val (b, f) ->
  extractBucketName (strings.TrimPrefix urlPath "/stream/") = Val b
  /\ extractFileName (strings.TrimPrefix urlPath "/stream/") = Val f.
Proof.
  unfold parsePath.
  destruct (extractBucketName _) as [b'|]; [|discriminate].
  destruct (extractFileName _) as [f'|]; [|discriminate].
  now intros [= -> ->].
Qed.

(** The handler on a path that parses: resolution with lifetime 10, then
    either the resolution error or the outbound GET and its answer. *)
Lemma handleRequest_parsed (W : World) (w : ResponseWriter) (r : Request)
    (s : Sys) (b f : string) :
  parsePath (URL_Path r) = Val (b, f) ->
  handleRequest W w r s =
  match getPresignedURL W b f 10 s with
  | (Panic e, s1) => (Panic e, s1)
  | (Val (url, Some err), s1) =>
      (Val (Fprintf w "Error getting presigned URL: " err), s1)
  | (Val (url, None), s1) =>
      (Val (answerOf W w r f (http_Get W url)), addEvents s1 [EvHttpGet url])
  end.
Proof.
  intros Hp. apply parsePath_Val in Hp as [Hb Hf].
  unfold handleRequest, Get_call. run. rewrite Hb, Hf.
  destruct (getPresignedURL W b f 10 s) as [[[url [err|]]|e] s1]; try reflexivity.
  cbn. unfold answerOf, io_Copy, withObjectHeaders.
  destruct (http_Get W url) as [resp|err]; [|reflexivity].
  now destruct (BodyErr resp).
Qed.

(** What one request leaves behind: the state it found, with the events of
    the request added to the trace. *)
Lemma handleRequest_state (W : World) (w : ResponseWriter) (r : Request) (s : Sys) :
  (handleRequest W w r s).2 = addEvents s (requestEvents W r s).
Proof.
  unfold requestEvents, fetchEvents.
  destruct (parsePath (URL_Path r)) as [[b f]|e] eqn:Hp.
  - rewrite (handleRequest_parsed W w r s b f Hp).
    destruct (getPresignedURL_runs W b f 10 s) as (url & err & ->).
    destruct err as [err|]; cbn [fst snd].
    + now rewrite app_nil_r.
    + now rewrite addEvents_app.
  - rewrite (handleRequest_panic W w r s e Hp). cbn. now rewrite addEvents_nil.
Qed.

Lemma presignEvents_expiry (W : World) (cfg : Config) (b f : string) (l : Z) (e : Event) :
  e ∈ presignEvents W cfg b f l ->
  isAssign e = false /\ isHttpGet e = false
  /\ (e = EvMinioPresign (minioClientOf cfg) b f (time.Second * 60)%Z
      \/ e = EvS3Presign (awsCfgOf cfg) b f (int64_mul l time.Second)).
Proof.
  unfold presignEvents.
  destruct (String.eqb _ "minio").
  - destruct (minio_New W _); [intros H; inversion H|].
    intros ->%list_elem_of_singleton. auto.
  - destruct (String.eqb _ "S3" || String.eqb _ "R2"); [|intros H; inversion H].
    destruct (awsConfig_LoadDefaultConfig W _); [intros H; inversion H|].
    intros ->%list_elem_of_singleton. auto.
Qed.

(** ** Presign lifetimes (C2, C9) *)

(** Without overflow the [int64] product is the product. *)
Lemma int64_mul_exact (a b : Z) :
  (- 2 ^ 63 <= a * b < 2 ^ 63)%Z -> int64_mul a b = (a * b)%Z.
Proof.
  intros H. unfold int64_mul, wrap64.
  rewrite Z.mod_small; lia.
Qed.

(** C2, as stated, fails for a lifetime whose count of nanoseconds does not
    fit [int64]: with backend [S3] and [lifetimeSecs = 9223372037], a value
    of type [int64], the expiry handed to the presigner is the negative
    duration [-9223372036709551616] ns, not 9223372037 seconds. *)
Lemma C2_expiry_overflow_counterexample :
  (- 2 ^ 63 <= 9223372037 < 2 ^ 63)%Z
  /\ trace (getPresignedURL (sampleWorld helloUpstream) "mybucket" "a.png"
              9223372037 (sampleSys "S3")).2
     = [EvS3Presign (awsCfgOf (sampleConfig "S3")) "mybucket" "a.png"
          (-9223372036709551616)%Z]
  /\ (-9223372036709551616)%Z <> (9223372037 * time.Second)%Z.
Proof. split; [vm_compute; split; congruence|]. split; [reflexivity|discriminate]. Qed.

(** C2, amended: when the lifetime in nanoseconds fits [int64] (at most
    9223372036 seconds in absolute value), a resolution with backend [S3] or
    [R2] whose client configuration loads makes exactly one presign call, and
    the expiry it hands to the presigner ([opts.Expires]) is exactly
    [lifetimeSecs] seconds; a resolution with backend [minio] whose client
    can be built makes exactly one presign call, and the expiry it hands to
    the presigner is 60 seconds, whatever lifetime the caller supplies.  This
    is the duration the program passes, not the validity the SDK then signs
    into the URL. *)
Theorem C2_presign_expiry (W : World) (bucketName fileName : string)
    (lifetimeSecs : Z) (s : Sys) :
  (-9223372036 <= lifetimeSecs <= 9223372036)%Z ->
  let cfg := globalConfig s in
  let s' := (getPresignedURL W bucketName fileName lifetimeSecs s).2 in
  (ServiceName cfg = "S3" \/ ServiceName cfg = "R2" ->
   awsConfig_LoadDefaultConfig W (awsCfgOf cfg) = None ->
   trace s' = trace s ++
     [EvS3Presign (awsCfgOf cfg) bucketName fileName (lifetimeSecs * time.Second)%Z])
  /\ (ServiceName cfg = "minio" ->
      minio_New W (minioClientOf cfg) = None ->
      forall anyLifetime : Z,
        trace (getPresignedURL W bucketName fileName anyLifetime s).2 = trace s ++
          [EvMinioPresign (minioClientOf cfg) bucketName fileName (60 * time.Second)%Z]).
Proof.
  intros Hl cfg s'. split.
  - intros Hs Hload. subst s'.
    destruct (getPresignedURL_runs W bucketName fileName lifetimeSecs s)
      as (url & err & ->).
    cbn. unfold presignEvents. fold cfg. rewrite Hload.
    rewrite int64_mul_exact by (unfold time.Second; lia).
    destruct Hs as [-> | ->]; reflexivity.
  - intros Hs Hnew anyLifetime.
    destruct (getPresignedURL_runs W bucketName fileName anyLifetime s)
      as (url & err & ->).
    cbn. unfold presignEvents. fold cfg. now rewrite Hs, Hnew.
Qed.

(** The same on a concrete run. *)
Lemma C2_presign_expiry_witness :
  (-9223372036 <= 30 <= 9223372036)%Z
  /\ trace (getPresignedURL (sampleWorld helloUpstream) "mybucket" "a.png" 30
              (sampleSys "R2")).2
     = [EvS3Presign (awsCfgOf (sampleConfig "R2")) "mybucket" "a.png" 30000000000%Z]
  /\ trace (getPresignedURL (sampleWorld helloUpstream) "mybucket" "a.png" 30
              (sampleSys "minio")).2
     = [EvMinioPresign (minioClientOf (sampleConfig "minio")) "mybucket" "a.png"
          60000000000%Z].
Proof.
  assert (Hl : (-9223372036 <= 30 <= 9223372036)%Z) by lia.
  split; [exact Hl|]. split.
  - apply (C2_presign_expiry (sampleWorld helloUpstream) "mybucket" "a.png" 30
             (sampleSys "R2") Hl); [right|]; reflexivity.
  - apply (C2_presign_expiry (sampleWorld helloUpstream) "mybucket" "a.png" 30
             (sampleSys "minio") Hl); reflexivity.
Defined.

(** C9: whatever the request, the handler resolves with the lifetime 10: every
    S3/R2 presign call a request makes is given an expiry of exactly 10
    seconds, and a request whose path parses makes that call when the backend
    is [S3] or [R2] and the client configuration loads. *)
Theorem C9_lifetime_is_ten_seconds (W : World) (w : ResponseWriter)
    (r : Request) (s : Sys) :
  exists evs,
    trace (handleRequest W w r s).2 = trace s ++ evs
    /\ (forall cfg b k expires,
          EvS3Presign cfg b k expires ∈ evs -> expires = (10 * time.Second)%Z)
    /\ (forall b f,
          parsePath (URL_Path r) = Val (b, f) ->
          ServiceName (globalConfig s) = "S3" \/ ServiceName (globalConfig s) = "R2" ->
          awsConfig_LoadDefaultConfig W (awsCfgOf (globalConfig s)) = None ->
          EvS3Presign (awsCfgOf (globalConfig s)) b f (10 * time.Second)%Z ∈ evs).
Proof.
  exists (requestEvents W r s). rewrite handleRequest_state.
  split; [reflexivity|]. unfold requestEvents. split.
  - intros cfg b k expires Hin.
    destruct (parsePath (URL_Path r)) as [[b' f']|e]; [|inversion Hin].
    apply elem_of_app in Hin as [Hin|Hin].
    + apply presignEvents_expiry in Hin as (_ & _ & [Heq|Heq]); [discriminate|].
      now injection Heq as _ _ _ ->.
    + unfold fetchEvents in Hin.
      destruct (getPresignedURL W b' f' 10 s).1 as [[url [err|]]|e];
        try (inversion Hin; fail).
      apply list_elem_of_singleton in Hin. discriminate.
  - intros b f -> Hs Hload. apply elem_of_app. left.
    unfold presignEvents. rewrite Hload.
    destruct Hs as [-> | ->]; cbn; apply list_elem_of_singleton; reflexivity.
Qed.

(** The same on a concrete run. *)
Lemma C9_lifetime_is_ten_seconds_witness :
  exists evs,
    trace (handleRequest (sampleWorld helloUpstream) newResponseWriter
             (sampleRequest "GET" "/stream/files/mybucket/a/b/c.png")
             (sampleSys "S3")).2 = evs
    /\ EvS3Presign (awsCfgOf (sampleConfig "S3")) "mybucket" "a/b/c.png"
         10000000000%Z ∈ evs.
Proof.
  destruct (C9_lifetime_is_ten_seconds (sampleWorld helloUpstream) newResponseWriter
              (sampleRequest "GET" "/stream/files/mybucket/a/b/c.png")
              (sampleSys "S3")) as (evs & Ht & _ & Hin).
  exists evs. split; [exact Ht|].
  apply (Hin "mybucket" "a/b/c.png"); [reflexivity|left; reflexivity|reflexivity].
Defined.

(** ** Unsupported backends (C4) *)

Lemma getPresignedURL_unsupported (W : World) (b f : string) (l : Z) (s : Sys) :
  ServiceName (globalConfig s) <> "minio" ->
  ServiceName (globalConfig s) <> "S3" ->
  ServiceName (globalConfig s) <> "R2" ->
  getPresignedURL W b f l s
  = (Val ("", Some "unsupported object storage service"), s).
Proof.
  intros Hm Hs Hr. unfold getPresignedURL. run.
  apply String.eqb_neq in Hm, Hs, Hr. now rewrite Hm, Hs, Hr.
Qed.

(** C4: while the service name is none of [minio], [S3] and [R2], every
    resolution fails with the unsupported-backend error and the empty URL,
    without any call; a request leaves the state and the trace as they were,
    so it makes no outbound GET, and when its path parses the caller is told
    of the resolution error. *)
Theorem C4_unsupported_backend (W : World) (w : ResponseWriter) (r : Request)
    (s : Sys) :
  ServiceName (globalConfig s) <> "minio" ->
  ServiceName (globalConfig s) <> "S3" ->
  ServiceName (globalConfig s) <> "R2" ->
  (forall bucketName fileName lifetimeSecs,
     getPresignedURL W bucketName fileName lifetimeSecs s
     = (Val ("", Some "unsupported object storage service"), s))
  /\ (handleRequest W w r s).2 = s
  /\ (forall url, EvHttpGet url ∉ requestEvents W r s)
  /\ (forall b f,
        parsePath (URL_Path r) = Val (b, f) ->
        (handleRequest W w r s).1
        = Val (Fprintf w "Error getting presigned URL: "
                 "unsupported object storage service")).
Proof.
  intros Hm Hs Hr.
  assert (Hev : requestEvents W r s = []).
  { unfold requestEvents, fetchEvents, presignEvents.
    destruct (parsePath (URL_Path r)) as [[b f]|e]; [|reflexivity].
    rewrite (getPresignedURL_unsupported W b f 10 s Hm Hs Hr).
    apply String.eqb_neq in Hm, Hs, Hr. now rewrite Hm, Hs, Hr. }
  split; [intros; now apply getPresignedURL_unsupported|].
  split; [now rewrite handleRequest_state, Hev, addEvents_nil|].
  split; [intros url; rewrite Hev; apply not_elem_of_nil|].
  intros b f Hp. rewrite (handleRequest_parsed W w r s b f Hp).
  now rewrite (getPresignedURL_unsupported W b f 10 s Hm Hs Hr).
Qed.

(** The same on a concrete run. *)
Lemma C4_unsupported_backend_witness :
  ServiceName (globalConfig (sampleSys "gcs")) <> "minio"
  /\ ServiceName (globalConfig (sampleSys "gcs")) <> "S3"
  /\ ServiceName (globalConfig (sampleSys "gcs")) <> "R2"
  /\ (handleRequest (sampleWorld helloUpstream) newResponseWriter
        (sampleRequest "GET" "/stream/files/mybucket/a.png") (sampleSys "gcs")).2
     = sampleSys "gcs".
Proof.
  assert (Hm : ServiceName (globalConfig (sampleSys "gcs")) <> "minio") by discriminate.
  assert (Hs : ServiceName (globalConfig (sampleSys "gcs")) <> "S3") by discriminate.
  assert (Hr : ServiceName (globalConfig (sampleSys "gcs")) <> "R2") by discriminate.
  repeat (split; [assumption|]).
  apply (C4_unsupported_backend (sampleWorld helloUpstream) newResponseWriter
           (sampleRequest "GET" "/stream/files/mybucket/a.png") (sampleSys "gcs")
           Hm Hs Hr).
Defined.

(** ** Failures (C3, C6) *)

Lemma Fprintf_fresh (text : string) (err : error) :
  Fprintf newResponseWriter text err
  = {| Header := ∅; status := Some 200%Z;
       body := list_byte_of_string (text +:+ err) |}.
Proof. reflexivity. Qed.

(** The handler on each of its error branches. *)
Lemma handleRequest_fails (W : World) (w : ResponseWriter) (r : Request)
    (s : Sys) (fl : Failure) :
  fails W r s fl ->
  (handleRequest W w r s).1
  = Val (Write (list_byte_of_string (diagnostic fl)) w).
Proof.
  intros (b & f & url & s1 & Hp & Hfl).
  rewrite (handleRequest_parsed W w r s b f Hp).
  destruct fl as [err|err|err].
  - now rewrite Hfl.
  - destruct Hfl as [-> Hget]. cbn. now rewrite Hget.
  - destruct Hfl as [-> (resp & Hget & Herr)]. cbn. rewrite Hget. cbn.
    now rewrite Herr.
Qed.

(** The handler never looks at the status of the upstream response: two
    responses that differ in their status only are answered alike. *)
Lemma upstream_status_not_inspected (W : World) (w : ResponseWriter)
    (r : Request) (fileName : string) (resp : Response) (code : Z) :
  answerOf W w r fileName (OK resp)
  = answerOf W w r fileName
      (OK {| StatusCode := code; Body := Body resp; BodyErr := BodyErr resp |}).
Proof. reflexivity. Qed.

(** C3, as stated, fails: when the upstream answers the outbound GET with
    status 404 and the body [NoSuchKey], the handler reports no error; it
    relays the nine bytes of the upstream body with status 200. *)
Lemma C3_upstream_404_counterexample :
  let W := sampleWorld notFoundUpstream in
  let r := sampleRequest "GET" "/stream/files/mybucket/missing.png" in
  (StatusCode <$> http_Get_value W "https://s3.example.com/mybucket/missing.png")
  = Some 404%Z
  /\ exists w s',
       handleRequest W newResponseWriter r (sampleSys "S3") = (Val w, s')
       /\ EvHttpGet "https://s3.example.com/mybucket/missing.png" ∈ trace s'
       /\ body w = list_byte_of_string "NoSuchKey"
       /\ statusSeen w = 200%Z.
Proof.
  split; [reflexivity|].
  eexists _, _. split; [reflexivity|].
  split; [|split; reflexivity].
  apply list_elem_of_lookup. exists 1%nat. reflexivity.
Qed.

(** C3, amended: when the outbound GET itself fails ([http.Get] returns an
    error) the handler writes exactly [Error getting object: ] followed by
    the error, and when the body of the upstream response cannot be read to
    the end it writes exactly [Error reading object: ] followed by the error,
    whatever bytes were read before.  The caller of a request that is not a
    [HEAD] receives that text as the body; the caller of a [HEAD] request
    receives no body.  In both cases no byte of the upstream body is sent.
    The status of the upstream response is not looked at. *)
Theorem C3_fetch_failure_reported (W : World) (r : Request) (s : Sys)
    (fl : Failure) :
  fails W r s fl ->
  (forall err, fl <> ResolutionError err) ->
  exists w,
    (handleRequest W newResponseWriter r s).1 = Val w
    /\ (serveRequest W r s).1 = Val (Replied (sentToCaller r w))
    /\ body w = list_byte_of_string (diagnostic fl)
    /\ (Method r <> "HEAD" ->
        body (sentToCaller r w) = list_byte_of_string (diagnostic fl))
    /\ (Method r = "HEAD" -> body (sentToCaller r w) = [])
    /\ ((exists err, fl = FetchError err
                      /\ diagnostic fl = "Error getting object: " +:+ err)
        \/ (exists err, fl = ReadError err
                         /\ diagnostic fl = "Error reading object: " +:+ err)).
Proof.
  intros Hf Hne.
  pose proof (handleRequest_fails W newResponseWriter r s fl Hf) as Hw.
  eexists. split; [exact Hw|].
  split.
  { unfold serveRequest.
    destruct (handleRequest W newResponseWriter r s) as [[w|e] s']; cbn in *;
      congruence. }
  split; [reflexivity|]. unfold sentToCaller.
  split; [intros ->%String.eqb_neq; reflexivity|].
  split; [intros ->; reflexivity|].
  destruct fl as [err|err|err]; [now destruct (Hne err)|left|right]; eauto.
Qed.

Lemma sample_fetch_fails :
  fails (sampleWorld unreachableUpstream)
    (sampleRequest "GET" "/stream/files/mybucket/a.png") (sampleSys "minio")
    (FetchError "dial tcp: connection refused").
Proof.
  exists "mybucket", "a.png". eexists _, _.
  split; [reflexivity|]. split; [lazy; reflexivity|reflexivity].
Qed.

(** The same on a concrete run. *)
Lemma C3_fetch_failure_reported_witness :
  exists w,
    (serveRequest (sampleWorld unreachableUpstream)
       (sampleRequest "GET" "/stream/files/mybucket/a.png") (sampleSys "minio")).1
    = Val (Replied w)
    /\ body w
       = list_byte_of_string "Error getting object: dial tcp: connection refused".
Proof.
  destruct (C3_fetch_failure_reported (sampleWorld unreachableUpstream)
              (sampleRequest "GET" "/stream/files/mybucket/a.png")
              (sampleSys "minio") (FetchError "dial tcp: connection refused")
              sample_fetch_fails ltac:(discriminate))
    as (w & _ & Hreply & _ & Hsent & _).
  eexists. split; [exact Hreply|].
  apply Hsent. discriminate.
Defined.

Lemma sample_head_fetch_fails :
  fails (sampleWorld unreachableUpstream)
    (sampleRequest "HEAD" "/stream/files/mybucket/a.png") (sampleSys "minio")
    (FetchError "dial tcp: connection refused").
Proof.
  exists "mybucket", "a.png". eexists _, _.
  split; [reflexivity|]. split; [lazy; reflexivity|reflexivity].
Qed.

(** C6, as stated, fails: a [HEAD] request whose outbound GET fails is
    answered with status 200 and no body; the diagnostic the handler writes
    is not sent. *)
Lemma C6_head_failure_counterexample :
  let W := sampleWorld unreachableUpstream in
  let r := sampleRequest "HEAD" "/stream/files/mybucket/a.png" in
  fails W r (sampleSys "minio") (FetchError "dial tcp: connection refused")
  /\ exists w,
       (serveRequest W r (sampleSys "minio")).1 = Val (Replied w)
       /\ statusSeen w = 200%Z
       /\ body w = []
       /\ body w <> list_byte_of_string
                      (diagnostic (FetchError "dial tcp: connection refused")).
Proof.
  split; [exact sample_head_fetch_fails|].
  eexists. split; [reflexivity|]. split; [reflexivity|].
  split; [reflexivity|discriminate].
Qed.

(** C6, amended: on each failure of a request (the resolution fails, the
    outbound GET fails, or the body cannot be read) the handler sets no
    status and no header and writes the plain text of the diagnostic, which
    ends with the message of the underlying error: the response has status
    200, and its body is that diagnostic unless the request is a [HEAD],
    whose response has no body. *)
Theorem C6_failures_answer_200 (W : World) (r : Request) (s : Sys) (fl : Failure) :
  fails W r s fl ->
  exists w,
    (handleRequest W newResponseWriter r s).1 = Val w
    /\ serveRequest W r s
       = (Val (Replied (sentToCaller r w)), (handleRequest W newResponseWriter r s).2)
    /\ status w = Some 200%Z
    /\ Header w = ∅
    /\ body w = list_byte_of_string (diagnostic fl)
    /\ statusSeen (sentToCaller r w) = 200%Z
    /\ Header (sentToCaller r w) = ∅
    /\ (Method r <> "HEAD" ->
        body (sentToCaller r w) = list_byte_of_string (diagnostic fl))
    /\ (Method r = "HEAD" -> body (sentToCaller r w) = [])
    /\ exists text err,
         diagnostic fl = text +:+ err
         /\ (fl = ResolutionError err \/ fl = FetchError err \/ fl = ReadError err).
Proof.
  intros Hf. pose proof (handleRequest_fails W newResponseWriter r s fl Hf) as Hw.
  eexists. split; [exact Hw|].
  split.
  { unfold serveRequest.
    destruct (handleRequest W newResponseWriter r s) as [[w|e] s']; cbn in *;
      congruence. }
  do 3 (split; [reflexivity|]). unfold sentToCaller.
  split; [now destruct (String.eqb (Method r) "HEAD")|].
  split; [now destruct (String.eqb (Method r) "HEAD")|].
  split; [intros ->%String.eqb_neq; reflexivity|].
  split; [intros ->; reflexivity|].
  destruct fl as [err|err|err]; eexists _, err; (split; [reflexivity|]); auto.
Qed.

(** The same on a concrete run. *)
Lemma C6_failures_answer_200_witness :
  exists w,
    (serveRequest (sampleWorld unreachableUpstream)
       (sampleRequest "GET" "/stream/files/mybucket/a.png") (sampleSys "minio")).1
    = Val (Replied w)
    /\ statusSeen w = 200%Z
    /\ body w
       = list_byte_of_string "Error getting object: dial tcp: connection refused".
Proof.
  destruct (C6_failures_answer_200 (sampleWorld unreachableUpstream)
              (sampleRequest "GET" "/stream/files/mybucket/a.png")
              (sampleSys "minio") (FetchError "dial tcp: connection refused")
              sample_fetch_fails)
    as (w & _ & Hreply & _ & _ & _ & Hs & _ & Hsent & _).
  eexists. split; [rewrite Hreply; reflexivity|].
  split; [exact Hs|]. apply Hsent. discriminate.
Defined.

(** ** Successful fetches (C5) *)

(** [http.ServeContent] on a request without range or precondition headers
    that is not a [HEAD], for a writer that has a content type, no content
    encoding and no status yet. *)
Lemma ServeContent_plain (W : World) (w : ResponseWriter) (r : Request)
    (name : string) (content : list byte) (ctype : string) :
  plainRequest r = true ->
  Method r <> "HEAD" ->
  Header w !! "Content-Type" = Some ctype ->
  Header w !! "Content-Encoding" = None ->
  status w = None ->
  ServeContent W w r name content
  = {| Header := <["Content-Length" := pretty (List.length content)]>
                   (<["Accept-Ranges" := "bytes"]> (Header w));
       status := Some 200%Z;
       body := body w ++ content |}.
Proof.
  intros Hplain Hhead Hct Hce Hst. unfold ServeContent, sendContent.
  apply andb_true_iff in Hplain as [-> ->]. rewrite Hct.
  apply String.eqb_neq in Hhead. rewrite Hhead.
  unfold Header_Get, Header_Set. cbn [Header status body].
  rewrite lookup_insert_ne, Hce by discriminate. cbn.
  unfold Write, WriteHeader. cbn. now rewrite Hst.
Qed.

(** A [HEAD] request whose fetch succeeds (the upstream serves the five
    bytes [hello]) is answered with [Content-Length: 5] and no body byte. *)
Lemma head_request_gets_no_body :
  let W := sampleWorld helloUpstream in
  let r := sampleRequest "HEAD" "/stream/files/mybucket/hello.txt" in
  fetched W r (sampleSys "S3")
    {| StatusCode := 200; Body := list_byte_of_string "hello"; BodyErr := None |}
  /\ exists w,
       (handleRequest W newResponseWriter r (sampleSys "S3")).1 = Val w
       /\ Header w !! "Content-Length" = Some "5"
       /\ body w = [].
Proof.
  split.
  - exists "mybucket", "hello.txt". eexists _, _.
    split; [reflexivity|]. split; [lazy; reflexivity|]. split; reflexivity.
  - eexists. split; [reflexivity|]. split; reflexivity.
Qed.

(** C5, as stated, fails: a GET request with the header [Range: bytes=0-0]
    whose fetch succeeds (the upstream serves the five bytes [hello]) is
    answered with status 206, [Content-Length: 1] and the single byte [h]:
    neither is the length that of the buffered body, nor is the body the
    upstream body. *)
Lemma C5_range_request_counterexample :
  let W := sampleWorld helloUpstream in
  let r := firstByteRequest "/stream/files/mybucket/hello.txt" in
  fetched W r (sampleSys "S3")
    {| StatusCode := 200; Body := list_byte_of_string "hello"; BodyErr := None |}
  /\ exists w,
       (handleRequest W newResponseWriter r (sampleSys "S3")).1 = Val w
       /\ status w = Some 206%Z
       /\ Header w !! "Content-Range" = Some "bytes 0-0/5"
       /\ Header w !! "Content-Length" = Some "1"
       /\ body w = list_byte_of_string "h"
       /\ body w <> list_byte_of_string "hello".
Proof.
  split.
  - exists "mybucket", "hello.txt". eexists _, _.
    split; [reflexivity|]. split; [lazy; reflexivity|]. split; reflexivity.
  - eexists. split; [reflexivity|].
    do 4 (split; [reflexivity|]). discriminate.
Qed.

(** C5, amended: for every successful fetch on a request that is not a [HEAD]
    and carries neither a [Range] header nor a precondition header
    ([If-Match], [If-Unmodified-Since], [If-None-Match], [If-Modified-Since],
    [If-Range]), the response has status 200, the headers
    [Content-Type: application/octet-stream], [Accept-Ranges: bytes],
    [Access-Control-Allow-Origin: *] and [Content-Length] equal to the length
    of the buffered body, and its body is the upstream body, byte for byte. *)
Theorem C5_plain_request_served_whole (W : World) (r : Request) (s : Sys)
    (resp : Response) :
  fetched W r s resp ->
  plainRequest r = true ->
  Method r <> "HEAD" ->
  exists w,
    (handleRequest W newResponseWriter r s).1 = Val w
    /\ Header w !! "Content-Type" = Some "application/octet-stream"
    /\ Header w !! "Accept-Ranges" = Some "bytes"
    /\ Header w !! "Access-Control-Allow-Origin" = Some "*"
    /\ Header w !! "Content-Length" = Some (pretty (List.length (Body resp)))
    /\ status w = Some 200%Z
    /\ body w = Body resp.
Proof.
  intros (b & f & url & s1 & Hp & Hurl & Hget & Herr) Hplain Hhead.
  rewrite (handleRequest_parsed W _ r s b f Hp), Hurl. cbn.
  rewrite Hget. cbn. rewrite Herr.
  erewrite (ServeContent_plain W _ r f (Body resp) _ Hplain Hhead);
    [|reflexivity..].
  eexists. split; [reflexivity|]. cbn.
  repeat split; reflexivity.
Qed.

Lemma sample_fetched :
  fetched (sampleWorld helloUpstream)
    (sampleRequest "GET" "/stream/files/mybucket/hello.txt") (sampleSys "S3")
    {| StatusCode := 200; Body := list_byte_of_string "hello"; BodyErr := None |}.
Proof.
  exists "mybucket", "hello.txt". eexists _, _.
  split; [reflexivity|]. split; [lazy; reflexivity|]. split; reflexivity.
Qed.

(** The same on a concrete run. *)
Lemma C5_plain_request_served_whole_witness :
  plainRequest (sampleRequest "GET" "/stream/files/mybucket/hello.txt") = true
  /\ Method (sampleRequest "GET" "/stream/files/mybucket/hello.txt") <> "HEAD"
  /\ exists w,
       (handleRequest (sampleWorld helloUpstream) newResponseWriter
          (sampleRequest "GET" "/stream/files/mybucket/hello.txt")
          (sampleSys "S3")).1 = Val w
       /\ Header w !! "Content-Length" = Some "5"
       /\ body w = list_byte_of_string "hello".
Proof.
  assert (Hplain : plainRequest
            (sampleRequest "GET" "/stream/files/mybucket/hello.txt") = true)
    by reflexivity.
  assert (Hhead : Method (sampleRequest "GET" "/stream/files/mybucket/hello.txt")
                  <> "HEAD") by discriminate.
  split; [exact Hplain|]. split; [exact Hhead|].
  destruct (C5_plain_request_served_whole (sampleWorld helloUpstream)
              (sampleRequest "GET" "/stream/files/mybucket/hello.txt")
              (sampleSys "S3") _ sample_fetched Hplain Hhead)
    as (w & Hw & _ & _ & _ & Hlen & _ & Hbody).
  exists w. split; [exact Hw|]. split; [exact Hlen|exact Hbody].
Defined.

(** ** Configuration (C8, C10) *)

(** [loadConfig] runs to the end, assigns the configuration read from the
    environment left by [godotenv.Load], and returns [nil]. *)
Lemma loadConfig_runs (W : World) (path : string) (s : Sys) :
  let env' := (godotenv_Load W (path +:+ "/.env") (environ s)).1 in
  loadConfig W path s
  = (Val None,
     {| globalConfig := configOfEnv env';
        environ := env';
        trace := trace s ++ [EvAssignGlobalConfig (configOfEnv env')] |}).
Proof.
  unfold loadConfig, godotenv_Load_call, GetString, assignGlobalConfig. run.
  destruct (godotenv_Load W _ _) as [env' err]. reflexivity.
Qed.

Lemma requestEvents_no_assign (W : World) (r : Request) (s : Sys) :
  Forall (fun e => isAssign e = false) (requestEvents W r s).
Proof.
  unfold requestEvents.
  destruct (parsePath (URL_Path r)) as [[b f]|e]; [|constructor].
  apply Forall_app. split.
  - apply Forall_forall. intros e He. now apply presignEvents_expiry in He.
  - unfold fetchEvents.
    destruct (getPresignedURL W b f 10 s).1 as [[url [err|]]|e];
      repeat constructor.
Qed.

(** A request does not write the configuration. *)
Lemma handleRequest_reads_only (W : World) (w : ResponseWriter) (r : Request)
    (s : Sys) :
  globalConfig (handleRequest W w r s).2 = globalConfig s.
Proof. now rewrite handleRequest_state. Qed.

(** Serving any number of requests adds events, none of them an assignment
    of the configuration. *)
Lemma serve_runs (requests : list (World * Request)) (s : Sys) :
  exists replies evs,
    serve requests s = (Val replies, addEvents s evs)
    /\ Forall (fun e => isAssign e = false) evs.
Proof.
  revert s. induction requests as [|[W r] rest IH]; intros s.
  - exists [], []. cbn. rewrite addEvents_nil. split; [reflexivity|constructor].
  - cbn [serve]. unfold serveRequest. run.
    pose proof (handleRequest_state W newResponseWriter r s) as Hs.
    destruct (handleRequest W newResponseWriter r s) as [[w|e] s1];
      cbn [snd] in Hs; subst s1.
    all: destruct (IH (addEvents s (requestEvents W r s)))
           as (replies & evs & -> & Hevs).
    all: eexists _, (requestEvents W r s ++ evs).
    all: rewrite addEvents_app.
    all: split; [reflexivity|].
    all: apply Forall_app; split; [apply requestEvents_no_assign|exact Hevs].
Qed.

(** C8: [main] assigns [globalConfig] once, in [loadConfig], before the
    server starts to listen, and nothing after that assigns it again; a
    request and a resolution leave it as they found it. *)
Theorem C8_globalConfig_written_once (W : World)
    (requests : list (World * Request)) (env : gmap string string) :
  let s' := (main W requests (startup env)).2 in
  (exists evs,
     trace s' = EvAssignGlobalConfig (globalConfig s')
                  :: EvListenAndServe ":8080" :: evs
     /\ Forall (fun e => isAssign e = false) evs)
  /\ (forall (W' : World) (w : ResponseWriter) (r : Request) (s : Sys),
        globalConfig (handleRequest W' w r s).2 = globalConfig s
        /\ Forall (fun e => isAssign e = false) (requestEvents W' r s)
        /\ trace (handleRequest W' w r s).2 = trace s ++ requestEvents W' r s)
  /\ (forall (W' : World) (b f : string) (l : Z) (s : Sys),
        globalConfig (getPresignedURL W' b f l s).2 = globalConfig s).
Proof.
  intros s'. split; [|split].
  - subst s'. unfold main. run. rewrite loadConfig_runs. cbn -[serve configOfEnv].
    destruct (net_Listen W ":8080") as [err|].
    + exists []. split; [reflexivity|constructor].
    + match goal with
      | |- context [serve requests ?s0] =>
          destruct (serve_runs requests s0) as (replies & evs & -> & Hevs)
      end.
      exists evs. split; [reflexivity|exact Hevs].
  - intros W' w r s. split; [apply handleRequest_reads_only|].
    split; [apply requestEvents_no_assign|].
    now rewrite handleRequest_state.
  - intros W' b f l s.
    now destruct (getPresignedURL_runs W' b f l s) as (url & err & ->).
Qed.

(** C10: [loadConfig] returns [nil] for every path, whatever [godotenv.Load]
    reports and whatever the environment holds (a variable that is not set
    gives the empty string); so [main] never takes the fatal branch after
    [loadConfig] and always goes on to [http.ListenAndServe]. *)
Theorem C10_loadConfig_returns_nil (W : World) (path : string) (s : Sys)
    (requests : list (World * Request)) :
  (loadConfig W path s).1 = Val None
  /\ globalConfig (loadConfig W path s).2
     = configOfEnv (godotenv_Load W (path +:+ "/.env") (environ s)).1
  /\ configOfEnv ∅ = globalConfig (startup ∅)
  /\ (forall err, (main W requests s).1 <> Val (FatalConfig err))
  /\ EvListenAndServe ":8080" ∈ trace (main W requests s).2.
Proof.
  split; [now rewrite loadConfig_runs|].
  split; [now rewrite loadConfig_runs|].
  split; [reflexivity|].
  unfold main. run. rewrite loadConfig_runs. cbn -[serve configOfEnv].
  destruct (net_Listen W ":8080") as [err|].
  - split; [discriminate|]. cbn.
    apply elem_of_app. right. apply list_elem_of_singleton. reflexivity.
  - match goal with
    | |- context [serve requests ?s0] =>
        destruct (serve_runs requests s0) as (replies & evs & -> & Hevs)
    end.
    split; [discriminate|]. cbn.
    apply elem_of_app. left. apply elem_of_app. right.
    apply list_elem_of_singleton. reflexivity.
Qed.

(** * Further properties of the program *)

(** ** Which paths parse *)

Lemma Split_no_sep (s : string) (sep : ascii) :
  strings.contains sep s = false -> strings.Split s sep = [s].
Proof.
  induction s as [|c s IH]; simpl; [reflexivity|].
  intros [Hc Hs]%orb_false_iff. rewrite Hc, (IH Hs). reflexivity.
Qed.

Lemma Split_with_sep (s : string) (sep : ascii) :
  strings.contains sep s = true -> (2 <= List.length (strings.Split s sep))%nat.
Proof.
  induction s as [|c s IH]; simpl; [discriminate|].
  destruct (Ascii.eqb c sep); simpl.
  - intros _. pose proof (Split_nonempty s sep).
    destruct (strings.Split s sep); [contradiction|simpl; lia].
  - intros Hs. specialize (IH Hs).
    destruct (strings.Split s sep); simpl in *; lia.
Qed.

Lemma append_empty_r (s : string) : s +:+ "" = s.
Proof.
  induction s as [|c s IH]; [reflexivity|].
  change (String c (s +:+ "") = String c s). now rewrite IH.
Qed.

(** No segment of a split holds the separator. *)
Lemma Split_segments_clean (s : string) (sep : ascii) :
  Forall (fun seg => strings.contains sep seg = false) (strings.Split s sep).
Proof.
  induction s as [|c s IH]; simpl; [repeat constructor|].
  destruct (Ascii.eqb c sep) eqn:Hc; [constructor; [reflexivity|exact IH]|].
  destruct (strings.Split s sep) as [|seg rest]; simpl.
  - repeat constructor. simpl. now rewrite Hc.
  - inversion IH as [|? ? Hseg Hrest]; subst.
    constructor; [simpl; now rewrite Hc|exact Hrest].
Qed.

(** The handler panics exactly on the request paths that hold no slash after
    the route prefix; then it panics in [extractBucketName], with the state
    untouched.  On every other path it runs to its end. *)
Theorem handleRequest_panics_iff_no_slash (W : World) (w : ResponseWriter)
    (r : Request) (s : Sys) :
  let path := strings.TrimPrefix (URL_Path r) "/stream/" in
  (strings.contains slash path = false ->
   handleRequest W w r s = (Panic (IndexOutOfRange 1 1), s))
  /\ (strings.contains slash path = true ->
      exists w', (handleRequest W w r s).1 = Val w').
Proof.
  intros path. split.
  - intros Hc. apply handleRequest_panic.
    unfold parsePath, extractBucketName, index. fold path.
    now rewrite (Split_no_sep path slash Hc).
  - intros Hc. apply Split_with_sep in Hc.
    destruct (extract_in_bounds path Hc) as (b & _ & Hb & Hf).
    assert (Hp : parsePath (URL_Path r)
                 = Val (b, strings.Join (drop 2 (strings.Split path slash)) "/")).
    { unfold parsePath. fold path. now rewrite Hb, Hf. }
    rewrite (handleRequest_parsed W w r s _ _ Hp).
    destruct (getPresignedURL_runs W b
                (strings.Join (drop 2 (strings.Split path slash)) "/") 10 s)
      as (url & [err|] & ->); eauto.
Qed.

(** The same on a concrete run. *)
Lemma handleRequest_panics_iff_no_slash_witness :
  handleRequest (sampleWorld helloUpstream) newResponseWriter
    (sampleRequest "GET" "/stream/") (sampleSys "minio")
  = (Panic (IndexOutOfRange 1 1), sampleSys "minio")
  /\ exists w',
       (handleRequest (sampleWorld helloUpstream) newResponseWriter
          (sampleRequest "GET" "/stream/files/") (sampleSys "minio")).1 = Val w'.
Proof.
  split.
  - apply (handleRequest_panics_iff_no_slash (sampleWorld helloUpstream)
             newResponseWriter (sampleRequest "GET" "/stream/") (sampleSys "minio")).
    reflexivity.
  - apply (handleRequest_panics_iff_no_slash (sampleWorld helloUpstream)
             newResponseWriter (sampleRequest "GET" "/stream/files/")
             (sampleSys "minio")).
    reflexivity.
Defined.

(** A path with exactly two segments after the route prefix parses, to the
    second segment as the bucket and the empty string as the key: the empty
    key is not refused. *)
Theorem parsePath_two_segments_empty_key (first bucket : string) :
  strings.contains slash first = false ->
  strings.contains slash bucket = false ->
  parsePath ("/stream/" +:+ first +:+ "/" +:+ bucket) = Val (bucket, "").
Proof.
  intros Hf Hb. unfold parsePath. rewrite TrimPrefix_app.
  unfold extractBucketName, extractFileName.
  change ("/" +:+ bucket) with (String slash bucket).
  rewrite (Split_segment first _ slash Hf), (Split_no_sep bucket slash Hb).
  reflexivity.
Qed.

(** The same on a concrete run. *)
Lemma parsePath_two_segments_empty_key_witness :
  strings.contains slash "mybucket" = false
  /\ strings.contains slash "photo.png" = false
  /\ parsePath "/stream/mybucket/photo.png" = Val ("photo.png", "").
Proof.
  split; [reflexivity|]. split; [reflexivity|].
  apply (parsePath_two_segments_empty_key "mybucket" "photo.png"); reflexivity.
Defined.

(** Whatever parses, parses without loss but for the first segment: the
    bucket holds no slash, and the path after the route prefix is the first
    segment, a slash and the bucket, followed by a slash and the key when
    there are three segments or more; with two segments the key is empty. *)
Theorem parsePath_inverse (urlPath bucket key : string) :
  parsePath urlPath = Val (bucket, key) ->
  exists first rest,
    segmentsOf urlPath = first :: bucket :: rest
    /\ strings.contains slash first = false
    /\ strings.contains slash bucket = false
    /\ key = strings.Join rest "/"
    /\ strings.TrimPrefix urlPath "/stream/"
       = first +:+ "/" +:+ bucket
         +:+ match rest with [] => "" | _ :: _ => "/" +:+ key end.
Proof.
  intros [Hb Hf]%parsePath_Val.
  pose proof (Join_Split (strings.TrimPrefix urlPath "/stream/") slash) as Hjoin.
  pose proof (Split_segments_clean (strings.TrimPrefix urlPath "/stream/") slash)
    as Hclean.
  unfold extractBucketName, extractFileName, index, slice_from in Hb, Hf.
  unfold segmentsOf.
  destruct (strings.Split (strings.TrimPrefix urlPath "/stream/") slash)
    as [|first [|b rest]]; try discriminate.
  cbn in Hb, Hf. injection Hb as ->. injection Hf as <-.
  inversion Hclean as [|? ? Hfirst Hrest]; subst.
  inversion Hrest as [|? ? Hbucket _]; subst.
  exists first, rest. repeat split; try assumption.
  rewrite <- Hjoin. destruct rest as [|seg rest]; [|reflexivity].
  cbn. now rewrite append_empty_r.
Qed.

(** The same on a concrete run. *)
Lemma parsePath_inverse_witness :
  exists first rest,
    segmentsOf "/stream/files/mybucket/a/b.png" = first :: "mybucket" :: rest
    /\ strings.TrimPrefix "/stream/files/mybucket/a/b.png" "/stream/"
       = first +:+ "/" +:+ "mybucket"
         +:+ match rest with [] => "" | _ :: _ => "/" +:+ "a/b.png" end.
Proof.
  destruct (parsePath_inverse "/stream/files/mybucket/a/b.png" "mybucket" "a/b.png"
              eq_refl) as (first & rest & Hseg & _ & _ & _ & Hpath).
  exists first, rest. split; [exact Hseg|exact Hpath].
Defined.

(** ** Resolution *)

(** [getPresignedURL] in one equation: what it returns and what it adds to
    the trace, both decided by the configuration alone. *)
Lemma getPresignedURL_result (W : World) (b f : string) (l : Z) (s : Sys) :
  getPresignedURL W b f l s
  = (Val (resolution W (globalConfig s) b f l),
     addEvents s (presignEvents W (globalConfig s) b f l)).
Proof.
  unfold getPresignedURL, resolution, presignEvents, Presigner_GetObject,
    PresignGetObject_call, PresignedGetObject_call. run. cbn.
  destruct (String.eqb (ServiceName (globalConfig s)) "minio").
  - destruct (minio_New W _); [now rewrite addEvents_nil|].
    now destruct (minio_PresignedGetObject W _ _ _ _).
  - destruct (String.eqb _ "S3" || String.eqb _ "R2"); cbn.
    + destruct (awsConfig_LoadDefaultConfig W _); [now rewrite addEvents_nil|].
      now destruct (s3_PresignGetObject W _ _ _ _).
    + now rewrite addEvents_nil.
Qed.

(** A resolution never returns a URL together with an error, makes at most
    one presign call, and makes exactly one when it returns a URL: no URL
    comes from anywhere but the selected SDK's presigner. *)
Theorem getPresignedURL_url_or_error (W : World) (bucketName fileName : string)
    (lifetimeSecs : Z) (s s' : Sys) (url : string) (err : option error) :
  getPresignedURL W bucketName fileName lifetimeSecs s = (Val (url, err), s') ->
  exists evs,
    trace s' = trace s ++ evs
    /\ (List.length evs <= 1)%nat
    /\ (is_Some err -> url = "")
    /\ (err = None ->
        exists e, evs = [e]
          /\ (e = EvMinioPresign (minioClientOf (globalConfig s)) bucketName
                    fileName (time.Second * 60)%Z
              \/ e = EvS3Presign (awsCfgOf (globalConfig s)) bucketName fileName
                       (int64_mul lifetimeSecs time.Second))).
Proof.
  rewrite getPresignedURL_result. intros [= Hres <-].
  exists (presignEvents W (globalConfig s) bucketName fileName lifetimeSecs).
  split; [reflexivity|]. revert Hres. unfold resolution, presignEvents.
  destruct (String.eqb _ "minio").
  - destruct (minio_New W _).
    + intros [= <- <-]. cbn. split; [lia|]. split; [reflexivity|discriminate].
    + destruct (minio_PresignedGetObject W _ _ _ _); intros [= <- <-]; cbn.
      * split; [lia|]. split; [intros [? [=]]|]. eauto.
      * split; [lia|]. split; [reflexivity|discriminate].
  - destruct (String.eqb _ "S3" || String.eqb _ "R2").
    + destruct (awsConfig_LoadDefaultConfig W _).
      * intros [= <- <-]. cbn. split; [lia|]. split; [reflexivity|discriminate].
      * destruct (s3_PresignGetObject W _ _ _ _); intros [= <- <-]; cbn.
        -- split; [lia|]. split; [intros [? [=]]|]. eauto.
        -- split; [lia|]. split; [reflexivity|discriminate].
    + intros [= <- <-]. cbn. split; [lia|]. split; [reflexivity|discriminate].
Qed.

(** The same on a concrete run: a client that cannot be built gives the
    empty URL and no call. *)
Lemma getPresignedURL_url_or_error_witness :
  exists evs,
    trace (getPresignedURL brokenSdkWorld "mybucket" "a.png" 10 (sampleSys "R2")).2
    = evs
    /\ (List.length evs <= 1)%nat
    /\ (getPresignedURL brokenSdkWorld "mybucket" "a.png" 10 (sampleSys "R2")).1
       = Val ("", Some "failed to load shared config").
Proof.
  destruct (getPresignedURL_url_or_error brokenSdkWorld "mybucket" "a.png" 10
              (sampleSys "R2") (sampleSys "R2") ""
              (Some "failed to load shared config") eq_refl)
    as (evs & Ht & Hlen & _).
  exists evs. split; [exact Ht|]. split; [exact Hlen|reflexivity].
Defined.

(** The backends [S3] and [R2] are one: two processes that select either of
    them with the same AWS settings resolve to the same result with the same
    call, whatever their Minio settings are. *)
Theorem getPresignedURL_S3_R2_alike (W : World) (bucketName fileName : string)
    (lifetimeSecs : Z) (s1 s2 : Sys) :
  ServiceName (globalConfig s1) = "S3" \/ ServiceName (globalConfig s1) = "R2" ->
  ServiceName (globalConfig s2) = "S3" \/ ServiceName (globalConfig s2) = "R2" ->
  AWSConfig (globalConfig s1) = AWSConfig (globalConfig s2) ->
  (getPresignedURL W bucketName fileName lifetimeSecs s1).1
  = (getPresignedURL W bucketName fileName lifetimeSecs s2).1
  /\ exists evs,
       trace (getPresignedURL W bucketName fileName lifetimeSecs s1).2
       = trace s1 ++ evs
       /\ trace (getPresignedURL W bucketName fileName lifetimeSecs s2).2
          = trace s2 ++ evs.
Proof.
  intros H1 H2 Haws. rewrite !getPresignedURL_result. cbn [fst snd].
  assert (Hcfg : awsCfgOf (globalConfig s1) = awsCfgOf (globalConfig s2))
    by (unfold awsCfgOf; now rewrite Haws).
  assert (Hr : resolution W (globalConfig s1) bucketName fileName lifetimeSecs
               = resolution W (globalConfig s2) bucketName fileName lifetimeSecs).
  { unfold resolution. rewrite Hcfg.
    destruct H1 as [-> | ->], H2 as [-> | ->]; reflexivity. }
  assert (He : presignEvents W (globalConfig s1) bucketName fileName lifetimeSecs
               = presignEvents W (globalConfig s2) bucketName fileName lifetimeSecs).
  { unfold presignEvents. rewrite Hcfg.
    destruct H1 as [-> | ->], H2 as [-> | ->]; reflexivity. }
  split; [now rewrite Hr|].
  eexists. split; [reflexivity|]. cbn. now rewrite He.
Qed.

(** The same on a concrete run. *)
Lemma getPresignedURL_S3_R2_alike_witness :
  (getPresignedURL (sampleWorld helloUpstream) "mybucket" "a.png" 10 (sampleSys "S3")).1
  = (getPresignedURL (sampleWorld helloUpstream) "mybucket" "a.png" 10 (sampleSys "R2")).1.
Proof.
  apply (getPresignedURL_S3_R2_alike (sampleWorld helloUpstream) "mybucket" "a.png"
           10 (sampleSys "S3") (sampleSys "R2"));
    [left; reflexivity|right; reflexivity|reflexivity].
Defined.

(** ** What one request does *)

(** Every call a request makes is either the outbound GET or a presign call
    to the selected backend, for the bucket and key parsed from the path,
    with that backend's own settings and lifetime: 60 seconds for [minio],
    10 seconds for [S3] and [R2].  The SDK of the other backend is never
    called. *)
Theorem handleRequest_calls_selected_backend (W : World) (w : ResponseWriter)
    (r : Request) (s : Sys) (evs : list Event) (e : Event) :
  trace (handleRequest W w r s).2 = trace s ++ evs ->
  e ∈ evs ->
  (exists url, e = EvHttpGet url)
  \/ exists b f,
       parsePath (URL_Path r) = Val (b, f)
       /\ ((ServiceName (globalConfig s) = "minio"
            /\ e = EvMinioPresign (minioClientOf (globalConfig s)) b f 60000000000%Z)
           \/ ((ServiceName (globalConfig s) = "S3"
                \/ ServiceName (globalConfig s) = "R2")
               /\ e = EvS3Presign (awsCfgOf (globalConfig s)) b f 10000000000%Z)).
Proof.
  rewrite handleRequest_state. cbn [trace addEvents].
  intros Hev%app_inv_head. subst evs. unfold requestEvents.
  destruct (parsePath (URL_Path r)) as [[b f]|e0]; [|intros H; inversion H].
  intros [Hin|Hin]%elem_of_app.
  - right. exists b, f. split; [reflexivity|].
    unfold presignEvents in Hin.
    destruct (String.eqb_spec (ServiceName (globalConfig s)) "minio") as [Hm|_].
    + destruct (minio_New W _); [inversion Hin|].
      apply list_elem_of_singleton in Hin. left. split; [exact Hm|exact Hin].
    + destruct (String.eqb_spec (ServiceName (globalConfig s)) "S3") as [H3|_];
        [|destruct (String.eqb_spec (ServiceName (globalConfig s)) "R2") as [H2|_]];
        cbn in Hin; try (inversion Hin; fail).
      all: destruct (awsConfig_LoadDefaultConfig W _); [inversion Hin|].
      all: apply list_elem_of_singleton in Hin; right; split; [auto|exact Hin].
  - left. unfold fetchEvents in Hin.
    destruct (getPresignedURL W b f 10 s).1 as [[url [err|]]|e1];
      try (inversion Hin; fail).
    apply list_elem_of_singleton in Hin. eauto.
Qed.

(** The same on a concrete run. *)
Lemma handleRequest_calls_selected_backend_witness :
  let s' := (handleRequest (sampleWorld helloUpstream) newResponseWriter
               (sampleRequest "GET" "/stream/files/mybucket/a.png")
               (sampleSys "minio")).2 in
  trace s' = [EvMinioPresign (minioClientOf (sampleConfig "minio")) "mybucket"
                "a.png" 60000000000%Z;
              EvHttpGet "https://minio.example.com/mybucket/a.png"]
  /\ ((exists url, EvHttpGet "https://minio.example.com/mybucket/a.png" = EvHttpGet url)
      \/ exists b f,
           parsePath "/stream/files/mybucket/a.png" = Val (b, f)
           /\ ((ServiceName (sampleConfig "minio") = "minio"
                /\ EvHttpGet "https://minio.example.com/mybucket/a.png"
                   = EvMinioPresign (minioClientOf (sampleConfig "minio")) b f
                       60000000000%Z)
               \/ ((ServiceName (sampleConfig "minio") = "S3"
                    \/ ServiceName (sampleConfig "minio") = "R2")
                   /\ EvHttpGet "https://minio.example.com/mybucket/a.png"
                      = EvS3Presign (awsCfgOf (sampleConfig "minio")) b f
                          10000000000%Z))).
Proof.
  split; [reflexivity|].
  apply (handleRequest_calls_selected_backend (sampleWorld helloUpstream)
           newResponseWriter (sampleRequest "GET" "/stream/files/mybucket/a.png")
           (sampleSys "minio")
           [EvMinioPresign (minioClientOf (sampleConfig "minio")) "mybucket"
              "a.png" 60000000000%Z;
            EvHttpGet "https://minio.example.com/mybucket/a.png"]);
    [reflexivity|].
  apply list_elem_of_further, list_elem_of_here.
Defined.

(** A request makes the outbound GET exactly when its resolution returned a
    URL without an error; it then fetches that very URL, once, after the
    presign call.  A request whose resolution fails, for whatever reason,
    fetches nothing. *)
Theorem handleRequest_fetches_iff_resolved (W : World) (w : ResponseWriter)
    (r : Request) (s : Sys) (b f : string) :
  parsePath (URL_Path r) = Val (b, f) ->
  (forall url,
     (getPresignedURL W b f 10 s).1 = Val (url, None) ->
     trace (handleRequest W w r s).2
     = trace s ++ presignEvents W (globalConfig s) b f 10 ++ [EvHttpGet url])
  /\ (forall url err,
        (getPresignedURL W b f 10 s).1 = Val (url, Some err) ->
        trace (handleRequest W w r s).2
        = trace s ++ presignEvents W (globalConfig s) b f 10
        /\ forall u, EvHttpGet u ∉ presignEvents W (globalConfig s) b f 10).
Proof.
  intros Hp. rewrite handleRequest_state. unfold requestEvents, fetchEvents.
  rewrite Hp. cbn [trace addEvents]. split.
  - intros url ->. reflexivity.
  - intros url err ->. rewrite app_nil_r. split; [reflexivity|].
    intros u Hin. apply presignEvents_expiry in Hin as (_ & Hget & _).
    discriminate.
Qed.

(** The same on a concrete run. *)
Lemma handleRequest_fetches_iff_resolved_witness :
  trace (handleRequest brokenSdkWorld newResponseWriter
           (sampleRequest "GET" "/stream/files/mybucket/a.png") (sampleSys "minio")).2
  = [].
Proof.
  destruct (handleRequest_fetches_iff_resolved brokenSdkWorld newResponseWriter
              (sampleRequest "GET" "/stream/files/mybucket/a.png")
              (sampleSys "minio") "mybucket" "a.png" eq_refl) as [_ Hfail].
  destruct (Hfail "" "Endpoint url cannot have fully qualified paths." eq_refl)
    as [Ht _].
  exact Ht.
Defined.

(** The handler answers all or nothing, and the results of its steps decide
    which: when the path does not parse it panics with the state untouched;
    when one of its three steps fails it writes the diagnostic of that
    failure, and nothing else, on the untouched writer; when the object is
    fetched and read to the end it sets the four headers and hands the whole
    buffer to [http.ServeContent].  A diagnostic is never mixed with object
    headers or object bytes, and the three cases exclude one another. *)
Theorem handleRequest_outcomes (W : World) (r : Request) (s : Sys) :
  ((exists e,
      parsePath (URL_Path r) = Panic e
      /\ handleRequest W newResponseWriter r s = (Panic e, s))
   \/ (exists fl w,
         fails W r s fl
         /\ (handleRequest W newResponseWriter r s).1 = Val w
         /\ Header w = ∅
         /\ status w = Some 200%Z
         /\ body w = list_byte_of_string (diagnostic fl))
   \/ (exists resp b f,
         fetched W r s resp
         /\ parsePath (URL_Path r) = Val (b, f)
         /\ (handleRequest W newResponseWriter r s).1
            = Val (ServeContent W (withObjectHeaders newResponseWriter (Body resp))
                     r f (Body resp))))
  /\ (forall fl resp, fails W r s fl -> ~ fetched W r s resp)
  /\ (forall fl w,
        fails W r s fl ->
        (handleRequest W newResponseWriter r s).1 = Val w ->
        body w = list_byte_of_string (diagnostic fl) /\ Header w = ∅).
Proof.
  split; [|split].
  - destruct (parsePath (URL_Path r)) as [[b f]|e] eqn:Hp.
    + right.
      pose proof (handleRequest_parsed W newResponseWriter r s b f Hp) as Hh.
      pose proof (getPresignedURL_result W b f 10 s) as Hres.
      destruct (resolution W (globalConfig s) b f 10) as [url [err|]].
      * left. exists (ResolutionError err).
        assert (Hf : fails W r s (ResolutionError err))
          by (exists b, f; eauto).
        eexists. split; [exact Hf|].
        rewrite (handleRequest_fails W newResponseWriter r s _ Hf).
        repeat split; reflexivity.
      * rewrite Hres in Hh. cbn [fst snd] in Hh.
        destruct (http_Get W url) as [resp|err] eqn:Hget.
        -- destruct (BodyErr resp) as [err|] eqn:Hbody.
           ++ left. exists (ReadError err).
              assert (Hf : fails W r s (ReadError err))
                by (exists b, f, url; eauto 10).
              eexists. split; [exact Hf|].
              rewrite (handleRequest_fails W newResponseWriter r s _ Hf).
              repeat split; reflexivity.
           ++ right. exists resp, b, f.
              split; [exists b, f, url; eauto 10|]. split; [reflexivity|].
              rewrite Hh. cbn [fst answerOf]. now rewrite Hbody.
        -- left. exists (FetchError err).
           assert (Hf : fails W r s (FetchError err))
             by (exists b, f, url; eauto 10).
           eexists. split; [exact Hf|].
           rewrite (handleRequest_fails W newResponseWriter r s _ Hf).
           repeat split; reflexivity.
    + left. exists e. split; [reflexivity|].
      now apply handleRequest_panic.
  - intros fl resp (b & f & url & s1 & Hp & Hfl)
      (b' & f' & url' & s1' & Hp' & Hurl & Hget & Hbody).
    rewrite Hp in Hp'. injection Hp' as <- <-.
    destruct fl as [err|err|err].
    + congruence.
    + destruct Hfl as [Hurl' Hget']. congruence.
    + destruct Hfl as [Hurl' (resp' & Hget' & Hbody')]. congruence.
  - intros fl w Hf. rewrite (handleRequest_fails W newResponseWriter r s fl Hf).
    intros [= <-]. split; reflexivity.
Qed.

(** ** From the environment to the answers *)



(** ** Requests do not interfere *)

(** The answer to a request depends on the configuration only, not on the
    rest of the process state. *)
Lemma handleRequest_same_config (W : World) (w : ResponseWriter) (r : Request)
    (s1 s2 : Sys) :
  globalConfig s1 = globalConfig s2 ->
  (handleRequest W w r s1).1 = (handleRequest W w r s2).1.
Proof.
  intros Hcfg.
  destruct (parsePath (URL_Path r)) as [[b f]|e] eqn:Hp.
  - rewrite !(handleRequest_parsed W w r _ b f Hp), !getPresignedURL_result, Hcfg.
    now destruct (resolution W (globalConfig s2) b f 10) as [url [err|]].
  - now rewrite !(handleRequest_panic W w r _ e Hp).
Qed.

Lemma serveRequest_runs (W : World) (r : Request) (s : Sys) :
  exists reply,
    serveRequest W r s = (Val reply, addEvents s (requestEvents W r s)).
Proof.
  unfold serveRequest.
  pose proof (handleRequest_state W newResponseWriter r s) as Hs.
  destruct (handleRequest W newResponseWriter r s) as [[w|e] s1];
    cbn [snd] in Hs; subst s1; eauto.
Qed.

Lemma serveRequest_same_config (W : World) (r : Request) (s1 s2 : Sys) :
  globalConfig s1 = globalConfig s2 ->
  (serveRequest W r s1).1 = (serveRequest W r s2).1.
Proof.
  intros Hcfg. unfold serveRequest.
  pose proof (handleRequest_same_config W newResponseWriter r s1 s2 Hcfg) as Hh.
  destruct (handleRequest W newResponseWriter r s1) as [[w1|e1] t1],
    (handleRequest W newResponseWriter r s2) as [[w2|e2] t2];
    cbn in Hh |- *; congruence.
Qed.

(** Whatever requests the server has handled before, and whether they were
    answered or aborted by a panic, the next request gets the reply it would
    have got as the first one. *)
Theorem serve_reply_independent (requests : list (World * Request)) (W : World)
    (r : Request) (s : Sys) :
  exists before reply,
    (serve requests s).1 = Val before
    /\ (serveRequest W r s).1 = Val reply
    /\ (serve (requests ++ [(W, r)]) s).1 = Val (before ++ [reply]).
Proof.
  revert s. induction requests as [|[W0 r0] rest IH]; intros s.
  - destruct (serveRequest_runs W r s) as (reply & Hr).
    exists [], reply. cbn [app serve]. run. rewrite Hr. auto.
  - destruct (serveRequest_runs W0 r0 s) as (reply0 & H0).
    destruct (IH (addEvents s (requestEvents W0 r0 s)))
      as (before & reply & Hb & Hr & Hall).
    exists (reply0 :: before), reply.
    rewrite (serveRequest_same_config W r s (addEvents s (requestEvents W0 r0 s)))
      by reflexivity.
    split; [|split; [exact Hr|]].
    + cbn [serve]. run. rewrite H0.
      destruct (serve rest _) as [[bs|e] t]; cbn in Hb |- *; congruence.
    + cbn [app serve]. run. rewrite H0.
      destruct (serve (rest ++ [(W, r)]) _) as [[bs|e] t]; cbn in Hall |- *;
        congruence.
Qed.

(** ** Successful fetches that are not served whole *)

(** A [HEAD] request without range or precondition headers whose fetch
    succeeds is answered with status 200 and the same four headers as a GET,
    [Content-Length] being the length of the whole object, and with no body
    byte; the object is nevertheless fetched and buffered first. *)
Theorem handleRequest_head (W : World) (r : Request) (s : Sys) (resp : Response) :
  fetched W r s resp ->
  plainRequest r = true ->
  Method r = "HEAD" ->
  exists w,
    (handleRequest W newResponseWriter r s).1 = Val w
    /\ status w = Some 200%Z
    /\ Header w !! "Content-Type" = Some "application/octet-stream"
    /\ Header w !! "Accept-Ranges" = Some "bytes"
    /\ Header w !! "Access-Control-Allow-Origin" = Some "*"
    /\ Header w !! "Content-Length" = Some (pretty (List.length (Body resp)))
    /\ body w = []
    /\ exists url, EvHttpGet url ∈ trace (handleRequest W newResponseWriter r s).2.
Proof.
  intros (b & f & url & s1 & Hp & Hurl & Hget & Herr) Hplain Hhead.
  pose proof (handleRequest_state W newResponseWriter r s) as Hstate.
  rewrite (handleRequest_parsed W _ r s b f Hp), Hurl in *. cbn [fst snd] in *.
  rewrite Hget. cbn [answerOf]. rewrite Herr.
  unfold ServeContent, sendContent.
  apply andb_true_iff in Hplain as [-> ->]. rewrite Hhead.
  eexists. split; [reflexivity|]. cbn.
  do 6 (split; [reflexivity|]).
  exists url. apply elem_of_app. right. apply list_elem_of_singleton. reflexivity.
Qed.

(** The same on a concrete run. *)
Lemma handleRequest_head_witness :
  exists w,
    (handleRequest (sampleWorld helloUpstream) newResponseWriter
       (sampleRequest "HEAD" "/stream/files/mybucket/hello.txt")
       (sampleSys "S3")).1 = Val w
    /\ Header w !! "Content-Length" = Some "5"
    /\ body w = [].
Proof.
  assert (Hf : fetched (sampleWorld helloUpstream)
                 (sampleRequest "HEAD" "/stream/files/mybucket/hello.txt")
                 (sampleSys "S3")
                 {| StatusCode := 200; Body := list_byte_of_string "hello";
                    BodyErr := None |}).
  { exists "mybucket", "hello.txt". eexists _, _.
    split; [reflexivity|]. split; [lazy; reflexivity|]. split; reflexivity. }
  destruct (handleRequest_head (sampleWorld helloUpstream)
              (sampleRequest "HEAD" "/stream/files/mybucket/hello.txt")
              (sampleSys "S3") _ Hf eq_refl eq_refl)
    as (w & Hw & _ & _ & _ & _ & Hlen & Hbody & _).
  exists w. split; [exact Hw|]. split; [exact Hlen|exact Hbody].
Defined.

(** A byte range that [parseRange] accepts lies inside the content and is
    not empty. *)
Lemma parseRange_bounds (header : string) (size : N) (ra : httpRange) :
  parseRange header size = Some ra ->
  (range_start ra < size /\ 1 <= range_length ra
   /\ range_start ra + range_length ra <= size)%N.
Proof.
  unfold parseRange.
  destruct (strings.cut_prefix "bytes=" header) as [spec|]; [|discriminate].
  destruct (strings.Split spec "-") as [|first [|last [|? ?]]]; try discriminate.
  destruct (parseOffset first) as [i|]; [|discriminate].
  destruct (N.leb_spec size i) as [|Hi]; [discriminate|].
  destruct (String.eqb last "").
  - intros [= <-]. cbn. lia.
  - destruct (parseOffset last) as [j|]; [|discriminate].
    destruct (N.ltb_spec j i) as [|Hj]; [discriminate|].
    destruct (N.leb_spec size j); intros [= <-]; cbn; lia.
Qed.

(** A GET request with one byte range inside the object and no precondition
    header, whose fetch succeeds, is answered with status 206 and exactly the
    bytes of that range: the body is that slice of the upstream body, its
    length is the length of the range, and [Content-Length] announces that
    length, not the length of the object the handler had set. *)
Theorem handleRequest_range (W : World) (r : Request) (s : Sys) (resp : Response)
    (ra : httpRange) :
  fetched W r s resp ->
  noPreconditions r = true ->
  Method r <> "HEAD" ->
  parseRange (Header_Get (ReqHeader r) "Range") (N.of_nat (List.length (Body resp)))
  = Some ra ->
  exists w,
    (handleRequest W newResponseWriter r s).1 = Val w
    /\ status w = Some 206%Z
    /\ body w = take (N.to_nat (range_length ra))
                  (drop (N.to_nat (range_start ra)) (Body resp))
    /\ List.length (body w) = N.to_nat (range_length ra)
    /\ Header w !! "Content-Length" = Some (pretty (range_length ra))
    /\ Header w !! "Content-Range"
       = Some (contentRange ra (N.of_nat (List.length (Body resp))))
    /\ Header w !! "Content-Type" = Some "application/octet-stream"
    /\ Header w !! "Access-Control-Allow-Origin" = Some "*".
Proof.
  intros (b & f & url & s1 & Hp & Hurl & Hget & Herr) Hnp Hhead Hrange.
  rewrite (handleRequest_parsed W _ r s b f Hp), Hurl. cbn [fst].
  rewrite Hget. cbn [answerOf]. rewrite Herr.
  unfold ServeContent, sendContent. rewrite Hnp.
  destruct (String.eqb_spec (Header_Get (ReqHeader r) "Range") "") as [Hempty|_].
  { rewrite Hempty in Hrange. discriminate. }
  rewrite Hrange. apply String.eqb_neq in Hhead. rewrite Hhead.
  eexists. split; [reflexivity|]. cbn.
  split; [reflexivity|]. split; [reflexivity|].
  split; [|repeat split; reflexivity].
  apply parseRange_bounds in Hrange as (Hlt & Hpos & Hle).
  change (List.length (take (N.to_nat (range_length ra))
                         (drop (N.to_nat (range_start ra)) (Body resp)))
          = N.to_nat (range_length ra)).
  rewrite length_take, length_drop. lia.
Qed.

(** The same on a concrete run. *)
Lemma handleRequest_range_witness :
  exists w,
    (handleRequest (sampleWorld helloUpstream) newResponseWriter
       (firstByteRequest "/stream/files/mybucket/hello.txt") (sampleSys "S3")).1
    = Val w
    /\ body w = list_byte_of_string "h"
    /\ Header w !! "Content-Length" = Some "1".
Proof.
  assert (Hf : fetched (sampleWorld helloUpstream)
                 (firstByteRequest "/stream/files/mybucket/hello.txt")
                 (sampleSys "S3")
                 {| StatusCode := 200; Body := list_byte_of_string "hello";
                    BodyErr := None |}).
  { exists "mybucket", "hello.txt". eexists _, _.
    split; [reflexivity|]. split; [lazy; reflexivity|]. split; reflexivity. }
  destruct (handleRequest_range (sampleWorld helloUpstream)
              (firstByteRequest "/stream/files/mybucket/hello.txt")
              (sampleSys "S3") _
              {| range_start := 0; range_length := 1 |} Hf eq_refl
              ltac:(discriminate) eq_refl)
    as (w & Hw & _ & Hbody & _ & Hlen & _).
  exists w. split; [exact Hw|]. split; [exact Hbody|exact Hlen].
Defined.
